(** * ton-x: the Tonhub connector, its wallet-config verifier and its
      session and job normalisation, as a shallow embedding.

    Source files embedded here:
    - [src/connector/TonhubConnector.ts] (verifyWalletConfig,
      ensureSessionStateCorrect, getSessionState, waitForSessionState,
      awaitSessionReady, requestTransaction, requestSign, _awaitJobState,
      _getJobState);
    - [src/connector/crypto.ts] (verifySignatureResponse, the ton-core
      version);
    - [src/contracts/extractPublicKeyAndAddress.ts];
    - the repository's [backoff], which is [createBackoff] of teslabot
      with [maxFailureCount: 5].

    JavaScript exceptions are results of type [Res]; asynchronous code that
    talks to the relay runs in the monad [M], which threads the relay, the
    clock and the log of transport calls, and keeps them when a call
    throws. *)

From Stdlib Require Import ZArith List String Ascii Bool Lia.
From Stdlib.Strings Require Import Byte.
Import ListNotations.

Set Warnings "-register-all".

Local Open Scope string_scope.
Local Open Scope list_scope.
Local Open Scope Z_scope.

Local Abbreviation length := List.length.

(** ** Results of calls that may throw *)

Inductive Res (A : Type) : Type :=
| Ret (a : A)
| Throw (msg : string).

Arguments Ret {A} a.
Arguments Throw {A} msg.

Definition rbind {A B : Type} (r : Res A) (k : A -> Res B) : Res B :=
  match r with
  | Ret a => k a
  | Throw msg => Throw msg
  end.

Declare Scope res_scope.
Delimit Scope res_scope with res.
Notation "'let!' x ':=' e 'in' k" := (rbind e (fun x => k))
  (at level 10, x name, e at level 100, k at level 200) : res_scope.
Local Open Scope res_scope.

(** ** Buffers, addresses and cells (the part of ton-core the connector uses) *)

Definition Buffer := list byte.

(** [Buffer.from(str)]: a string is kept as the bytes of its UTF-8 encoding. *)
Definition utf8 (s : string) : Buffer := list_byte_of_string s.

Definition buffer_eqb (a b : Buffer) : bool :=
  if list_eq_dec Byte.byte_eq_dec a b then true else false.

Module TonCore.

(** A parsed address: a workchain and a 32-byte account hash. *)
Record Address : Type := mkAddress {
  workChain : Z;
  hash : Buffer
}.

(** [Address.equals]. *)
Definition equals (this src : Address) : bool :=
  if negb (workChain src =? workChain this) then false
  else buffer_eqb (hash src) (hash this).

(** A cell: up to 1023 data bits and up to 4 references. *)
Inductive Cell : Type :=
| mkCell (bits : list bool) (refs : list Cell).

Definition cellBits (c : Cell) : list bool :=
  match c with mkCell b _ => b end.
Definition cellRefs (c : Cell) : list Cell :=
  match c with mkCell _ r => r end.

(** [Cell.EMPTY], also what [new Cell()] gives. *)
Definition EMPTY : Cell := mkCell [] [].

Record Builder : Type := mkBuilder {
  b_bits : list bool;
  b_refs : list Cell
}.

Definition beginCell : Builder := mkBuilder [] [].

Definition maxBits : nat := 1023.
Definition maxRefs : nat := 4.

Definition availableBits (b : Builder) : nat := maxBits - length (b_bits b).

(** Appending bits past the capacity of the cell throws. *)
Definition storeBits (bs : list bool) (b : Builder) : Res Builder :=
  if (length (b_bits b) + length bs <=? maxBits)%nat
  then Ret (mkBuilder (b_bits b ++ bs) (b_refs b))
  else Throw "BitBuilder overflow".

Definition storeBit (v : bool) (b : Builder) : Res Builder :=
  storeBits [v] b.

(** The [w] low bits of [v], most significant first. *)
Definition uintBits (v : Z) (w : nat) : list bool :=
  map (fun i => Z.testbit v (Z.of_nat i)) (rev (seq 0 w)).

Definition storeUint (v : Z) (w : nat) (b : Builder) : Res Builder :=
  if (0 <=? v) && (v <? 2 ^ Z.of_nat w)
  then storeBits (uintBits v w) b
  else Throw "value is out of range".

Definition storeInt (v : Z) (w : nat) (b : Builder) : Res Builder :=
  if (- 2 ^ (Z.of_nat w - 1) <=? v) && (v <? 2 ^ (Z.of_nat w - 1))
  then storeBits (uintBits (v mod 2 ^ Z.of_nat w) w) b
  else Throw "value is out of range".

Definition byteBits (x : byte) : list bool :=
  uintBits (Z.of_N (Byte.to_N x)) 8.

Definition bufferBits (buf : Buffer) : list bool :=
  flat_map byteBits buf.

Definition storeBuffer (buf : Buffer) (b : Builder) : Res Builder :=
  storeBits (bufferBits buf) b.

(** [storeCoins]: a 4-bit byte count, then the amount on that many bytes. *)
Definition coinsBytes (amount : Z) : Z :=
  if amount =? 0 then 0 else (Z.log2 amount + 1 + 7) / 8.

Definition storeCoins (amount : Z) (b : Builder) : Res Builder :=
  if amount <? 0 then Throw "value is out of range"
  else
    let n := coinsBytes amount in
    let! b1 := storeUint n 4 b in
    storeUint amount (Z.to_nat (8 * n)) b1.

(** [storeAddress]: tag [10], no anycast, workchain on 8 bits, the hash. *)
Definition storeAddress (a : Address) (b : Builder) : Res Builder :=
  let! b1 := storeUint 2 2 b in
  let! b2 := storeUint 0 1 b1 in
  let! b3 := storeInt (workChain a) 8 b2 in
  storeBuffer (hash a) b3.

Definition storeRef (c : Cell) (b : Builder) : Res Builder :=
  if (length (b_refs b) <? maxRefs)%nat
  then Ret (mkBuilder (b_bits b) (b_refs b ++ [c]))
  else Throw "Too many references".

Definition storeMaybeRef (c : option Cell) (b : Builder) : Res Builder :=
  match c with
  | Some c' => let! b1 := storeBit true b in storeRef c' b1
  | None => storeBit false b
  end.

Definition endCell (b : Builder) : Cell := mkCell (b_bits b) (b_refs b).

(** [storeStringTail]: the bytes that fit go into this cell, the rest into
    a chain of child cells.  [fuel] bounds the length of the chain. *)
Fixpoint writeBuffer (fuel : nat) (src : Buffer) (b : Builder) : Res Builder :=
  match fuel with
  | O => Throw "writeBuffer: out of fuel"
  | S fuel' =>
      if (0 <? length src)%nat then
        let bytes := (availableBits b / 8)%nat in
        if (bytes <? length src)%nat then
          let a := firstn bytes src in
          let t := skipn bytes src in
          let! b1 := storeBuffer a b in
          let! bb := writeBuffer fuel' t beginCell in
          storeRef (endCell bb) b1
        else storeBuffer src b
      else Ret b
  end.

Definition storeStringTail (src : string) (b : Builder) : Res Builder :=
  writeBuffer (S (length (utf8 src))) (utf8 src) b.

Definition storeStringRefTail (src : string) (b : Builder) : Res Builder :=
  let! bb := storeStringTail src beginCell in
  storeRef (endCell bb) b.

(** [comment(src)]: a 32-bit zero opcode followed by the text. *)
Definition comment (src : string) : Res Cell :=
  let! b1 := storeUint 0 32 beginCell in
  let! b2 := storeStringTail src b1 in
  Ret (endCell b2).

(** [slice.loadBuffer(n)] on a fresh slice of the cell. *)
Fixpoint bitsToZ (acc : Z) (bs : list bool) : Z :=
  match bs with
  | [] => acc
  | x :: r => bitsToZ (2 * acc + (if x then 1 else 0)) r
  end.

Definition byteOfBits (bs : list bool) : byte :=
  match Byte.of_N (Z.to_N (bitsToZ 0 bs)) with
  | Some x => x
  | None => x00
  end.

Fixpoint bytesOfBits (n : nat) (bs : list bool) : Buffer :=
  match n with
  | O => []
  | S n' => byteOfBits (firstn 8 bs) :: bytesOfBits n' (skipn 8 bs)
  end.

Definition loadBuffer (n : nat) (c : Cell) : Res Buffer :=
  if (8 * n <=? length (cellBits c))%nat
  then Ret (bytesOfBits n (cellBits c))
  else Throw "Index out of bounds".

End TonCore.
Import TonCore.

(** ** What the connector takes from its platform

    Library calls whose code is outside the repository: Node's base64
    codec, ton-core's address parser and BOC codec, the ed25519 calls of
    ton-crypto and ton-core, and the repository's wallet decoder
    [walletV4FromConfig] and [toUrlSafe], which are not part of the sources
    at hand.  Any of them that can throw returns a [Res]. *)

Record KeyPair : Type := mkKeyPair {
  publicKey : Buffer;
  secretKey : Buffer
}.

Class Platform : Type := {
  (** [Buffer.from(s, 'base64')] *)
  fromBase64 : string -> Buffer;
  (** [buf.toString('base64')] *)
  toBase64 : Buffer -> string;
  (** [Address.parseFriendly(s).address] *)
  parseFriendly : string -> Res Address;
  (** [walletV4FromConfig(blob)], as its public key and address *)
  walletV4FromConfig : string -> Res (Buffer * Address);
  (** [safeSignVerify(cell, signature, publicKey)] *)
  safeSignVerify : Cell -> Buffer -> Buffer -> Res bool;
  (** [safeSign(cell, secretKey)] *)
  safeSign : Cell -> Buffer -> Res Buffer;
  (** [keyPairFromSeed(seed)] *)
  keyPairFromSeed : Buffer -> Res KeyPair;
  (** [toUrlSafe(s)] *)
  toUrlSafe : string -> string;
  (** [Cell.fromBoc(buf)[0]] *)
  fromBoc : Buffer -> Res Cell;
  (** [cell.toBoc({ idx: false })] *)
  toBoc : Cell -> Buffer;
  (** [BigInt(s)] *)
  parseBigInt : string -> Res Z;
  (** [exponentialBackoffDelay(n, 250, 1000, 5)] of teslabot: the pause, in
      ms, that [backoff] draws when its count of failures is [n] *)
  backoffDelay : nat -> N;
  (** not a library call: the number of retries of [backoff] that a run
      follows before it is cut; the loop of the library has no bound *)
  retryFuel : nat
}.

(** ** Wallet configs and their verification *)

Record TonhubWalletConfig : Type := mkWalletConfig {
  address : string;
  endpoint : string;
  walletType : string;
  walletConfig : string;
  walletSig : string;
  appPublicKey : string
}.

Section Verifier.

Context {P : Platform}.

(** [extractPublicKeyAndAddress]; [None] is the source's [null]. *)
Definition extractPublicKeyAndAddress (wType wConfig : string)
  : Res (option (Buffer * Address)) :=
  if String.eqb wType "org.ton.wallets.v4" then
    let! source := walletV4FromConfig wConfig in
    Ret (Some (fst source, snd source))
  else Ret None.

(** The cell that [verifyWalletConfig] checks the signature over
    (TonhubConnector.ts, lines 167-180). *)
Definition walletConfigToSign (session : string) (addr : Address)
    (config : TonhubWalletConfig) : Res Cell :=
  let! b1 := storeCoins 0 beginCell in
  let! b2 := storeBuffer (fromBase64 session) b1 in
  let! b3 := storeAddress addr b2 in
  let! b4 := storeBit true b3 in
  let! e := storeBuffer (utf8 (endpoint config)) beginCell in
  let! b5 := storeRef (endCell e) b4 in
  let! k := storeBuffer (fromBase64 (appPublicKey config)) beginCell in
  let! b6 := storeRef (endCell k) b5 in
  Ret (endCell b6).

(** [TonhubConnector.verifyWalletConfig]. *)
Definition verifyWalletConfig (session : string) (config : TonhubWalletConfig)
  : Res bool :=
  let! addr := parseFriendly (address config) in
  let! extracted :=
    extractPublicKeyAndAddress (walletType config) (walletConfig config) in
  match extracted with
  | None => Ret false
  | Some (pk, extractedAddress) =>
      if negb (equals extractedAddress addr) then Ret false
      else
        let! toSign := walletConfigToSign session addr config in
        safeSignVerify toSign (fromBase64 (walletSig config)) pk
  end.

(** JavaScript truthiness of an optional string: [null], [undefined] and
    the empty string are falsy. *)
Definition truthy (s : option string) : bool :=
  match s with
  | Some t => negb (String.eqb t "")
  | None => false
  end.

(** The comment cell of [verifySignatureResponse] (crypto.ts, line 27):
    [args.text ? comment(args.text) : Cell.EMPTY]. *)
Definition responseTextCell (text : option string) : Res Cell :=
  if truthy text
  then comment (match text with Some t => t | None => "" end)
  else Ret EMPTY.

(** The payload cell of [verifySignatureResponse] (crypto.ts, lines 28-31). *)
Definition responsePayloadCell (payload : option string) : Res Cell :=
  match payload with
  | Some p => fromBoc (fromBase64 p)
  | None => Ret EMPTY
  end.

(** [verifySignatureResponse] of crypto.ts. *)
Definition verifySignatureResponse (signature : string)
    (text payload : option string) (config : TonhubWalletConfig) : Res bool :=
  let! addr := parseFriendly (address config) in
  let! extracted :=
    extractPublicKeyAndAddress (walletType config) (walletConfig config) in
  match extracted with
  | None => Ret false
  | Some (pk, extractedAddress) =>
      if negb (equals extractedAddress addr) then Ret false
      else
        let! textCell := responseTextCell text in
        let! payloadCell := responsePayloadCell payload in
        let! b1 := storeRef textCell beginCell in
        let! b2 := storeRef payloadCell b1 in
        safeSignVerify (endCell b2) (fromBase64 signature) pk
  end.

End Verifier.

(** ** Relay records and the connector's public types *)

(** [SessionState], the record the relay returns for a session. *)
Inductive SessionState : Type :=
| Raw_not_found
| Raw_initing (name url : string) (testnet : bool) (created updated : Z)
    (revoked : bool)
| Raw_ready (name url : string) (wallet : TonhubWalletConfig) (testnet : bool)
    (created updated : Z) (revoked : bool).

(** The [state] tag of a relay record. *)
Definition rawState (ex : SessionState) : string :=
  match ex with
  | Raw_not_found => "not_found"
  | Raw_initing _ _ _ _ _ _ => "initing"
  | Raw_ready _ _ _ _ _ _ _ => "ready"
  end.

Definition rawTestnet (ex : SessionState) : option bool :=
  match ex with
  | Raw_not_found => None
  | Raw_initing _ _ t _ _ _ => Some t
  | Raw_ready _ _ _ t _ _ _ => Some t
  end.

(** [TonhubSessionState]. *)
Inductive TonhubSessionState : Type :=
| State_initing (name url : string) (created updated : Z)
| State_revoked
| State_ready (name url : string) (created updated : Z)
    (wallet : TonhubWalletConfig).

(** [TonhubSessionAwaited]. *)
Inductive TonhubSessionAwaited : Type :=
| Awaited_revoked
| Awaited_ready (name url : string) (created updated : Z)
    (wallet : TonhubWalletConfig)
| Awaited_expired.

(** [JobState], the record the relay returns for a job. *)
Inductive PendingTag : Type := submitted | expired | rejected.

Inductive JobState : Type :=
| Job_pending (state : PendingTag) (job : string) (created updated now : Z)
| Job_completed (job : string) (created updated : Z) (result : string) (now : Z)
| Job_empty (now : Z).

(** The [job] blob of a relay record that is not [empty]. *)
Definition jobBlob (res : JobState) : option string :=
  match res with
  | Job_pending _ job _ _ _ => Some job
  | Job_completed job _ _ _ _ => Some job
  | Job_empty _ => None
  end.

(** What [_getJobState] returns. *)
Inductive JobResult : Type :=
| Result_expired
| Result_rejected
| Result_submitted
| Result_completed (result : string).

(** What [_awaitJobState] returns. *)
Inductive JobAwaited : Type :=
| Job_done (result : string)
| Job_rejected
| Job_expired.

Module TonhubTransactionRequest.
Record t : Type := mk {
  seed : string;
  appPublicKey : string;
  to : string;
  value : string;
  timeout : Z;
  stateInit : option string;
  text : option string;
  payload : option string
}.
End TonhubTransactionRequest.

Inductive TonhubTransactionResponse : Type :=
| Tx_success (response : string)
| Tx_rejected
| Tx_expired
| Tx_invalid_session.

Module TonhubSignRequest.
Record t : Type := mk {
  seed : string;
  appPublicKey : string;
  timeout : Z;
  text : option string;
  payload : option string
}.
End TonhubSignRequest.

Inductive TonhubSignResponse : Type :=
| Sign_success (signature : string)
| Sign_rejected
| Sign_expired
| Sign_invalid_session.

(** ** The transport and the monad of relay calls *)

(** Calls made through [transport.call], by method name. *)
Inductive Call : Type :=
| session_get (id : string)
| session_wait (id : string) (lastUpdated : option Z)
| command_new (job : string)
| command_get (appk : string).

Definition isCommandNew (c : Call) : bool :=
  match c with command_new _ => true | _ => false end.

(** A transport over a relay of state [R]: each method gives its result (or
    throws), the relay afterwards, and the time the round trip took in ms. *)
Class Transport (R : Type) : Type := {
  call_session_get : string -> R -> Res SessionState * R * N;
  call_session_wait : string -> option Z -> R -> Res SessionState * R * N;
  call_command_new : string -> R -> Res unit * R * N;
  call_command_get : string -> R -> Res JobState * R * N
}.

(** What an asynchronous operation sees and changes: the relay, the wall
    clock ([Date.now()], in ms) and the log of transport calls made so far. *)
Record World (R : Type) : Type := mkWorld {
  relay : R;
  clock : Z;
  calls : list Call
}.
Arguments mkWorld {R} relay clock calls.
Arguments relay {R} w.
Arguments clock {R} w.
Arguments calls {R} w.

(** How a run of an operation ends; [OutOfFuel] marks a loop that was cut
    by the bound on its iterations, which the source does not have. *)
Inductive Outcome (A : Type) : Type :=
| Returns (a : A)
| Throws (msg : string)
| OutOfFuel.
Arguments Returns {A} a.
Arguments Throws {A} msg.
Arguments OutOfFuel {A}.

Definition M (R A : Type) : Type := World R -> Outcome A * World R.

Definition ret {R A : Type} (a : A) : M R A := fun w => (Returns a, w).

Definition bind {R A B : Type} (m : M R A) (k : A -> M R B) : M R B :=
  fun w =>
    match m w with
    | (Returns a, w1) => k a w1
    | (Throws msg, w1) => (Throws msg, w1)
    | (OutOfFuel, w1) => (OutOfFuel, w1)
    end.

Definition lift {R A : Type} (r : Res A) : M R A :=
  fun w => match r with
           | Ret a => (Returns a, w)
           | Throw msg => (Throws msg, w)
           end.

Definition outOfFuel {R A : Type} : M R A := fun w => (OutOfFuel, w).

(** [Date.now()]. *)
Definition dateNow {R : Type} : M R Z := fun w => (Returns (clock w), w).

(** Modelled from the spec: [delay] of [utils/time], which is not among the
    sources; the spec (sections 4.3 and 5) has it as the fixed pause
    between polls.  [await delay(ms)] moves the clock on by [ms]. *)
Definition delay {R : Type} (ms : Z) : M R unit :=
  fun w => (Returns tt, mkWorld (relay w) (clock w + ms) (calls w)).

(** [await this.transport.call(method, args)]. *)
Definition transportCall {R A : Type} (c : Call) (f : R -> Res A * R * N)
  : M R A :=
  fun w =>
    match f (relay w) with
    | (r, relay1, elapsed) =>
        let w1 := mkWorld relay1 (clock w + Z.of_N elapsed) (calls w ++ [c]) in
        match r with
        | Ret a => (Returns a, w1)
        | Throw msg => (Throws msg, w1)
        end
    end.

Declare Scope m_scope.
Delimit Scope m_scope with m.
Notation "x <- m ;; k" := (bind m (fun x => k))
  (at level 61, m at next level, right associativity) : m_scope.
Notation "m ;;; k" := (bind m (fun _ => k))
  (at level 61, right associativity) : m_scope.
Local Open Scope m_scope.

(** ** The connector *)

Inductive Network : Type := mainnet | testnet.

Definition isTestnet (n : Network) : bool :=
  match n with testnet => true | mainnet => false end.

Section Connector.

Context {P : Platform} {R : Type} {T : Transport R}.

(** [this.network]. *)
Variable network : Network.

(** The option [maxFailureCount: 5] that the repository gives to
    [createBackoff]: the count of failures stops growing there. *)
Definition maxFailureCount : nat := 5.

(** What the loop of [createBackoff] does to its count on a failure:
    [if (currentFailureCount < maxFailureCount) currentFailureCount++]. *)
Definition countFailure (currentFailureCount : nat) : nat :=
  if (currentFailureCount <? maxFailureCount)%nat
  then S currentFailureCount else currentFailureCount.

(** [backoff]: the repository defines it as
    [createBackoff({ maxFailureCount: 5, onError: ... })] of teslabot.  The
    loop of the library,
    [while (true) { try { return await callback() } catch (e) { ... } }],
    runs the callback until it returns.  A throw of the callback, whatever
    it is, is caught: the count of failures goes up by one, unless it is at
    [maxFailureCount] already, [onError] may print a warning, the loop
    pauses, and the callback is run again.  No error leaves the loop and
    nothing ends it but a return of the callback.  [fuel] bounds the
    retries that a run follows: a failure with no fuel left cuts the run
    ([OutOfFuel]). *)
Fixpoint backoffFrom {A : Type} (fuel currentFailureCount : nat)
    (callback : M R A) : M R A :=
  fun w =>
    match callback w with
    | (Throws _, w1) =>
        match fuel with
        | O => (OutOfFuel, w1)
        | S fuel' =>
            let failures := countFailure currentFailureCount in
            match delay (Z.of_N (backoffDelay failures)) w1 with
            | (_, w2) => backoffFrom fuel' failures callback w2
            end
        end
    | other => other
    end.

Definition backoff {A : Type} (callback : M R A) : M R A :=
  backoffFrom retryFuel 0 callback.

(** [idFromSeed]. *)
Definition idFromSeed (seed : string) : Res string :=
  let! keyPair := keyPairFromSeed (fromBase64 seed) in
  Ret (toUrlSafe (toBase64 (publicKey keyPair))).

(** [ensureSessionStateCorrect]. *)
Definition ensureSessionStateCorrect (sessionId : string) (ex : SessionState)
  : Res TonhubSessionState :=
  match ex with
  | Raw_initing name url tn created updated _ =>
      if negb (Bool.eqb tn (isTestnet network)) then Ret State_revoked
      else Ret (State_initing name url created updated)
  | Raw_ready name url wallet tn created updated revoked =>
      if revoked then Ret State_revoked
      else if negb (Bool.eqb tn (isTestnet network)) then Ret State_revoked
      else
        let! ok := verifyWalletConfig sessionId wallet in
        if negb ok then Throw "Integrity check failed"
        else
          Ret (State_ready name url created updated
                 (mkWalletConfig (address wallet) (endpoint wallet)
                    (walletType wallet) (walletConfig wallet)
                    (walletSig wallet) (appPublicKey wallet)))
  | Raw_not_found => Ret State_revoked
  end.

(** [getSessionState]. *)
Definition getSessionState (sessionId : string) : M R TonhubSessionState :=
  backoff (
    session <- transportCall (session_get sessionId)
                 (call_session_get sessionId) ;;
    lift (ensureSessionStateCorrect sessionId session)).

(** [waitForSessionState]. *)
Definition waitForSessionState (sessionId : string) (lastUpdated : option Z)
  : M R TonhubSessionState :=
  backoff (
    session <- transportCall (session_wait sessionId lastUpdated)
                 (call_session_wait sessionId lastUpdated) ;;
    lift (ensureSessionStateCorrect sessionId session)).

(** The [while (Date.now() < expires)] loop of [awaitSessionReady]; [fuel]
    bounds its iterations. *)
Fixpoint awaitSessionLoop (fuel : nat) (sessionId : string) (expires : Z)
    (lastUpdated : option Z) : M R TonhubSessionAwaited :=
  match fuel with
  | O => outOfFuel
  | S fuel' =>
      t <- dateNow ;;
      if t <? expires then
        existing <- waitForSessionState sessionId lastUpdated ;;
        match existing with
        | State_ready name url created updated wallet =>
            ret (Awaited_ready name url created updated wallet)
        | State_revoked => ret Awaited_revoked
        | State_initing _ _ _ _ =>
            delay 1000 ;;;
            awaitSessionLoop fuel' sessionId expires lastUpdated
        end
      else ret Awaited_expired
  end.

(** [awaitSessionReady]. *)
Definition awaitSessionReady (fuel : nat) (sessionId : string) (timeout : Z)
    (lastUpdated : option Z) : M R TonhubSessionAwaited :=
  t0 <- dateNow ;;
  let expires := t0 + timeout in
  backoff (awaitSessionLoop fuel sessionId expires lastUpdated).

(** [_getJobState]. *)
Definition _getJobState (appPublicKey boc : string) : M R JobResult :=
  let appk := toUrlSafe appPublicKey in
  res <- transportCall (command_get appk) (call_command_get appk) ;;
  match res with
  | Job_empty _ => ret Result_expired
  | Job_pending state job _ _ _ =>
      if negb (String.eqb job boc) then ret Result_rejected
      else
        match state with
        | expired => ret Result_expired
        | submitted => ret Result_submitted
        | rejected => ret Result_rejected
        end
  | Job_completed job _ _ result _ =>
      if negb (String.eqb job boc) then ret Result_rejected
      else ret (Result_completed result)
  end.

(** The [while (true)] loop of [_awaitJobState]; [fuel] bounds its
    iterations. *)
Fixpoint awaitJobLoop (fuel : nat) (appPublicKey boc : string)
  : M R JobAwaited :=
  match fuel with
  | O => outOfFuel
  | S fuel' =>
      state <- _getJobState appPublicKey boc ;;
      match state with
      | Result_expired => ret Job_expired
      | Result_completed result => ret (Job_done result)
      | Result_rejected => ret Job_rejected
      | Result_submitted =>
          delay 1000 ;;;
          awaitJobLoop fuel' appPublicKey boc
      end
  end.

(** [_awaitJobState]. *)
Definition _awaitJobState (fuel : nat) (appPublicKey boc : string)
  : M R JobAwaited :=
  backoff (awaitJobLoop fuel appPublicKey boc).

(** The signed envelope of a job (TonhubConnector.ts, lines 365-375 and
    430-440), as the base64 blob sent to the relay. *)
Definition packageJob (seed : string) (job : Cell) : Res string :=
  let! keypair := keyPairFromSeed (fromBase64 seed) in
  let! signature := safeSign job (secretKey keypair) in
  let! b1 := storeBuffer signature beginCell in
  let! b2 := storeBuffer (publicKey keypair) b1 in
  let! b3 := storeRef job b2 in
  Ret (toBase64 (toBoc (endCell b3))).

(** An optional base64 BOC, as the [typeof x === 'string'] tests read it. *)
Definition parseOptionalBoc (src : option string) : Res (option Cell) :=
  match src with
  | Some s => let! c := fromBoc (fromBase64 s) in Ret (Some c)
  | None => Ret None
  end.

(** The text of a request, [''] when it is not a string. *)
Definition commentMsgOf (text : option string) : string :=
  match text with
  | Some t => t
  | None => ""
  end.

(** The job cell of [requestTransaction] (lines 351-363). *)
Definition transactionJob (appKey : string) (expires : Z) (addr : Address)
    (value : Z) (commentMsg : string) (data stateInit : option Cell)
  : Res Cell :=
  let! b1 := storeBuffer (fromBase64 appKey) beginCell in
  let! b2 := storeUint expires 32 b1 in
  let! b3 := storeCoins 0 b2 in
  let! c1 := storeAddress addr beginCell in
  let! c2 := storeCoins value c1 in
  let! c3 := storeStringRefTail commentMsg c2 in
  let! c4 := storeMaybeRef data c3 in
  let! c5 := storeMaybeRef stateInit c4 in
  let! b4 := storeRef (endCell c5) b3 in
  Ret (endCell b4).

(** [requestTransaction] up to the posting of the job (lines 315-380):
    [None] when the session is refused, else the blob that was posted. *)
Definition submitTransaction (request : TonhubTransactionRequest.t)
  : M R (option string) :=
  sessionId <- lift (idFromSeed (TonhubTransactionRequest.seed request)) ;;
  session <- backoff (getSessionState sessionId) ;;
  match session with
  | State_ready _ _ _ _ wallet =>
      if negb (String.eqb (appPublicKey wallet)
                 (TonhubTransactionRequest.appPublicKey request))
      then ret None
      else
        addr <- lift (parseFriendly (TonhubTransactionRequest.to request)) ;;
        value <- lift (parseBigInt (TonhubTransactionRequest.value request)) ;;
        data <- lift (parseOptionalBoc
                        (TonhubTransactionRequest.payload request)) ;;
        stateInit <- lift (parseOptionalBoc
                             (TonhubTransactionRequest.stateInit request)) ;;
        let commentMsg :=
          commentMsgOf (TonhubTransactionRequest.text request) in
        t <- dateNow ;;
        let expires :=
          (t + TonhubTransactionRequest.timeout request) / 1000 in
        job <- lift (transactionJob (appPublicKey wallet) expires addr value
                       commentMsg data stateInit) ;;
        boc <- lift (packageJob (TonhubTransactionRequest.seed request) job) ;;
        backoff (transportCall (command_new boc) (call_command_new boc)) ;;;
        ret (Some boc)
  | _ => ret None
  end.

(** The answer of [requestTransaction] to the end of the job
    (lines 384-389). *)
Definition transactionResponse (result : JobAwaited)
  : TonhubTransactionResponse :=
  match result with
  | Job_done res => Tx_success res
  | Job_rejected => Tx_rejected
  | Job_expired => Tx_expired
  end.

(** [requestTransaction]. *)
Definition requestTransaction (fuel : nat)
    (request : TonhubTransactionRequest.t) : M R TonhubTransactionResponse :=
  posted <- submitTransaction request ;;
  match posted with
  | None => ret Tx_invalid_session
  | Some boc =>
      result <- _awaitJobState fuel
                  (TonhubTransactionRequest.appPublicKey request) boc ;;
      ret (transactionResponse result)
  end.

(** The comment cell of the sign job (lines 411-419). *)
Definition signCommentCell (text : option string) : Res Cell :=
  comment (commentMsgOf text).

(** The payload cell of the sign job (lines 405-409). *)
Definition signDataCell (payload : option string) : Res Cell :=
  match payload with
  | Some p => fromBoc (fromBase64 p)
  | None => Ret EMPTY
  end.

(** The job cell of [requestSign] (lines 420-428). *)
Definition signJob (appKey : string) (expires : Z) (commentCell data : Cell)
  : Res Cell :=
  let! b1 := storeBuffer (fromBase64 appKey) beginCell in
  let! b2 := storeUint expires 32 b1 in
  let! b3 := storeCoins 1 b2 in
  let! c1 := storeRef commentCell beginCell in
  let! c2 := storeRef data c1 in
  let! b4 := storeRef (endCell c2) b3 in
  Ret (endCell b4).

(** The 64-byte signature at the head of a job result (lines 451-453). *)
Definition resultSignature (result : string) : Res string :=
  let! cellRes := fromBoc (fromBase64 result) in
  let! resSignature := loadBuffer 64 cellRes in
  Ret (toBase64 resSignature).

(** [requestSign] up to the posting of the job (lines 394-446): [None]
    when the session is refused, else the wallet of the session and the
    blob that was posted. *)
Definition submitSign (request : TonhubSignRequest.t)
  : M R (option (TonhubWalletConfig * string)) :=
  sessionId <- lift (idFromSeed (TonhubSignRequest.seed request)) ;;
  session <- backoff (getSessionState sessionId) ;;
  match session with
  | State_ready _ _ _ _ wallet =>
      if negb (String.eqb (appPublicKey wallet)
                 (TonhubSignRequest.appPublicKey request))
      then ret None
      else
        data <- lift (signDataCell (TonhubSignRequest.payload request)) ;;
        t <- dateNow ;;
        let expires := (t + TonhubSignRequest.timeout request) / 1000 in
        commentCell <- lift (signCommentCell
                               (TonhubSignRequest.text request)) ;;
        job <- lift (signJob (appPublicKey wallet) expires commentCell data) ;;
        boc <- lift (packageJob (TonhubSignRequest.seed request) job) ;;
        backoff (transportCall (command_new boc) (call_command_new boc)) ;;;
        ret (Some (wallet, boc))
  | _ => ret None
  end.

(** The answer of [requestSign] to the end of the job (lines 450-469). *)
Definition signResponse (wallet : TonhubWalletConfig)
    (request : TonhubSignRequest.t) (result : JobAwaited)
  : Res TonhubSignResponse :=
  match result with
  | Job_done res =>
      let! resSignature := resultSignature res in
      let! correct := verifySignatureResponse resSignature
                        (TonhubSignRequest.text request)
                        (TonhubSignRequest.payload request) wallet in
      if correct then Ret (Sign_success resSignature)
      else Ret Sign_rejected
  | Job_rejected => Ret Sign_rejected
  | Job_expired => Ret Sign_expired
  end.

(** [requestSign]. *)
Definition requestSign (fuel : nat) (request : TonhubSignRequest.t)
  : M R TonhubSignResponse :=
  posted <- submitSign request ;;
  match posted with
  | None => ret Sign_invalid_session
  | Some (wallet, boc) =>
      result <- _awaitJobState fuel
                  (TonhubSignRequest.appPublicKey request) boc ;;
      lift (signResponse wallet request result)
  end.

End Connector.

(** ** Creating a session *)

(** [TonhubCreatedSession]. *)
Module TonhubCreatedSession.
Record t : Type := mk {
  id : string;
  seed : string;
  link : string
}.
End TonhubCreatedSession.

(** The [session_new] method of a transport: the [ok] field of the answer
    (or a throw), the relay afterwards, and the time of the round trip. *)
Class Registrar (R : Type) : Type := {
  call_session_new : string -> bool -> string -> string -> R -> Res bool * R * N
}.

(** [await this.transport.call('session_new', ...)]; the log of calls keeps
    to the four session and job methods and does not record this one. *)
Definition registrarCall {R A : Type} (f : R -> Res A * R * N) : M R A :=
  fun w =>
    match f (relay w) with
    | (r, relay1, elapsed) =>
        let w1 := mkWorld relay1 (clock w + Z.of_N elapsed) (calls w) in
        match r with
        | Ret a => (Returns a, w1)
        | Throw msg => (Throws msg, w1)
        end
    end.

Section CreateSession.

Context {P : Platform} {R : Type} {G : Registrar R}.

Variable network : Network.

(** The deep link of a session (TonhubConnector.ts, line 228). *)
Definition sessionLink (sessionId : string) : string :=
  ((if isTestnet network then "ton-test://connect/" else "ton://connect/")
     ++ sessionId ++ "?endpoint=connect.tonhubapi.com")%string.

(** The callback that [createNewSession] hands to [backoff]
    (lines 210-222). *)
Definition requestNewSession (sessionId name url : string) : M R unit :=
  session <- registrarCall
               (call_session_new sessionId (isTestnet network) name url) ;;
  if negb session then lift (Throw "Unable to create state") else ret tt.

(** [createNewSession]; [seed] stands for the 32 bytes that
    [getSecureRandomBytes(32)] returned. *)
Definition createNewSession (seed : Buffer) (name url : string)
  : M R TonhubCreatedSession.t :=
  keyPair <- lift (keyPairFromSeed seed) ;;
  let sessionId := toUrlSafe (toBase64 (publicKey keyPair)) in
  backoff (requestNewSession sessionId name url) ;;;
  ret (TonhubCreatedSession.mk sessionId (toBase64 seed)
         (sessionLink sessionId)).

End CreateSession.

(** ** The local connector ([TonhubLocalConnector]) *)

Module TonhubLocalTransactionRequest.
Record t : Type := mk {
  to : string;
  value : string;
  stateInit : option string;
  text : option string;
  payload : option string
}.
End TonhubLocalTransactionRequest.

Inductive TonhubLocalTransactionResponse : Type :=
| Local_success (response : string)
| Local_rejected.

(** What is handed to the injected provider: the name of the request and
    its arguments. *)
Inductive ProviderArgs : Type :=
| Args_tx (network : Network) (to value : string)
    (stateInit text payload : option string)
| Args_sign (network : Network) (textCell payloadCell : string).

(** What the provider hands to the callback: [{type: 'ok', data: {state,
    result}}], or an answer of another type with its [message]. *)
Inductive ProviderResponse : Type :=
| Provider_ok (state : string) (result : string)
| Provider_other (message : string).

(** The injected provider [tx.call], over a wallet of state [W]. *)
Class Provider (W : Type) : Type := {
  provide : string -> ProviderArgs -> W -> ProviderResponse * W
}.

Module TonhubLocalConnector.

Section Local.

Context {P : Platform} {W : Type} {V : Provider W}.

(** [x ? x : null] on an optional string: the empty string goes to
    [null] as well. *)
Definition orNull (x : option string) : option string :=
  if truthy x then x else None.

(** [#doRequest]: the provider is called and its answer awaited. *)
Definition doRequest (name : string) (args : ProviderArgs) (w : W)
  : ProviderResponse * W :=
  provide name args w.

(** [requestTransaction] of the local connector. *)
Definition requestTransaction (network : Network)
    (request : TonhubLocalTransactionRequest.t) (w : W)
  : Res TonhubLocalTransactionResponse * W :=
  let (res, w1) :=
    doRequest "tx"
      (Args_tx network
         (TonhubLocalTransactionRequest.to request)
         (TonhubLocalTransactionRequest.value request)
         (orNull (TonhubLocalTransactionRequest.stateInit request))
         (orNull (TonhubLocalTransactionRequest.text request))
         (orNull (TonhubLocalTransactionRequest.payload request))) w in
  match res with
  | Provider_ok state result =>
      if String.eqb state "rejected" then (Ret Local_rejected, w1)
      else if String.eqb state "sent" then (Ret (Local_success result), w1)
      else (Throw "Unknown reponse", w1)
  | Provider_other message => (Throw message, w1)
  end.

End Local.

End TonhubLocalConnector.

(** ** The text cell of the older connector ([textToCell]) *)

Module Legacy.

(** The loop of [textToCell]: [dest] is the cell being filled, [bytes] what
    is left of the text; the result is [dest] once the loop has ended, with
    the cells pushed onto its references.  [fuel] bounds the iterations. *)
Fixpoint textToCellLoop (fuel : nat) (bytes : Buffer) (dest : Builder)
  : Cell :=
  match fuel with
  | O => endCell dest
  | S fuel' =>
      if (0 <? length bytes)%nat then
        let avaliable := (availableBits dest / 8)%nat in
        if (length bytes <=? avaliable)%nat then
          mkCell (b_bits dest ++ bufferBits bytes) (b_refs dest)
        else
          let nc := textToCellLoop fuel' (skipn avaliable bytes) beginCell in
          mkCell (b_bits dest ++ bufferBits (firstn avaliable bytes))
            (b_refs dest ++ [nc])
      else endCell dest
  end.

(** [textToCell]. *)
Definition textToCell (src : string) : Cell :=
  textToCellLoop (S (length (utf8 src))) (utf8 src) beginCell.

(** The bytes of a chain of cells: the whole bytes of a cell, then those
    of its first reference. *)
Fixpoint chainBytes (c : Cell) : Buffer :=
  match c with
  | mkCell bits refs =>
      bytesOfBits (length bits / 8) bits
        ++ match refs with
           | r :: _ => chainBytes r
           | [] => []
           end
  end.

(** Every cell of the chain is within the capacity of a cell and has at
    most one reference. *)
Fixpoint chainFits (c : Cell) : Prop :=
  match c with
  | mkCell bits refs =>
      (length bits <= maxBits)%nat
      /\ match refs with
         | [] => True
         | [r] => chainFits r
         | _ => False
         end
  end.

End Legacy.

(** ** A reference platform and scripted relays

    Concrete stand-ins for the platform, used to run the connector on
    explicit inputs.  The base64 codec, the friendly-address parser (with
    its CRC16 check) and [toUrlSafe] follow the libraries' behaviour; the
    signature scheme, the wallet decoder and the BOC codec are small
    deterministic substitutes of the same shape (the real ones hash and
    sign with SHA-2 and ed25519). *)

Module Reference.

Definition alphabet : string :=
  "ABCDEFGHIJKLMNOPQRSTUVWXYZabcdefghijklmnopqrstuvwxyz0123456789+/".

Fixpoint indexOf (c : ascii) (s : string) (i : nat) : option nat :=
  match s with
  | EmptyString => None
  | String d r => if Ascii.eqb c d then Some i else indexOf c r (S i)
  end.

(** The value of a base64 digit; [-] and [_] are read as [+] and [/]. *)
Definition sextet (c : ascii) : option nat :=
  if Ascii.eqb c "-" then Some 62%nat
  else if Ascii.eqb c "_" then Some 63%nat
  else indexOf c alphabet 0.

(** Digits are gathered six bits at a time; a character outside the
    alphabet is skipped and [=] ends the input. *)
Fixpoint sextets (s : string) : list bool :=
  match s with
  | EmptyString => []
  | String c r =>
      if Ascii.eqb c "=" then []
      else
        match sextet c with
        | Some v => uintBits (Z.of_nat v) 6 ++ sextets r
        | None => sextets r
        end
  end.

Definition decodeBase64 (s : string) : Buffer :=
  let bs := sextets s in
  bytesOfBits (length bs / 8) bs.

Definition digit (bs : list bool) : ascii :=
  match String.get (Z.to_nat (bitsToZ 0 bs)) alphabet with
  | Some c => c
  | None => "A"%char
  end.

Fixpoint encodeGroups (n : nat) (bs : list bool) : string :=
  match n with
  | O => EmptyString
  | S n' => String (digit (firstn 6 bs)) (encodeGroups n' (skipn 6 bs))
  end.

Definition encodeBase64 (buf : Buffer) : string :=
  let bs := bufferBits buf in
  let pad := ((3 - length buf mod 3) mod 3)%nat in
  let groups := ((length bs + 5) / 6)%nat in
  (encodeGroups groups (bs ++ repeat false 6)%list
     ++ match pad with
        | 1%nat => "="
        | 2%nat => "=="
        | _ => ""
        end)%string.

(** CRC16 (polynomial 0x1021, initial value 0) over the data followed by
    two zero bytes, bit by bit. *)
Definition crcStep (reg : Z) (bit : bool) : Z :=
  let r := 2 * reg + (if bit then 1 else 0) in
  if 65535 <? r then Z.lxor (Z.land r 65535) 4129 else r.

Definition crc16 (data : Buffer) : Z :=
  fold_left crcStep (bufferBits data ++ repeat false 16) 0.

Definition byteZ (x : byte) : Z := Z.of_N (Byte.to_N x).

Definition isFriendlyChar (c : ascii) : bool :=
  match sextet c with Some _ => true | None => false end.

Fixpoint allChars (f : ascii -> bool) (s : string) : bool :=
  match s with
  | EmptyString => true
  | String c r => f c && allChars f r
  end.

Definition parseFriendlyAddress (src : string) : Res Address :=
  if negb ((String.length src =? 48)%nat && allChars isFriendlyChar src)
  then Throw "Unknown address type"
  else
    let data := decodeBase64 src in
    if negb (length data =? 36)%nat
    then Throw "Unknown address type: byte length is not equal to 36"
    else
      let addr := firstn 34 data in
      let crc := skipn 34 data in
      if negb (crc16 addr =? bitsToZ 0 (bufferBits crc))
      then Throw "Invalid checksum"
      else
        let tag0 := byteZ (nth 0 addr x00) in
        let tag := if Z.testbit tag0 7 then Z.lxor tag0 128 else tag0 in
        if negb ((tag =? 17) || (tag =? 81))
        then Throw "Unknown address tag"
        else
          let wc := byteZ (nth 1 addr x00) in
          Ret (mkAddress (if wc =? 255 then -1 else wc)
                 (firstn 32 (skipn 2 addr))).

Fixpoint removeChar (c : ascii) (s : string) : string :=
  match s with
  | EmptyString => EmptyString
  | String d r => if Ascii.eqb c d then removeChar c r
                  else String d (removeChar c r)
  end.

Fixpoint replaceChar (c by_ : ascii) (s : string) : string :=
  match s with
  | EmptyString => EmptyString
  | String d r => String (if Ascii.eqb c d then by_ else d)
                    (replaceChar c by_ r)
  end.

Definition urlSafe (s : string) : string :=
  removeChar "=" (replaceChar "+" "-" (replaceChar "/" "_" s)).

(** A stand-in for the cell hash: a running sum over the bits of the cell
    and of its references, kept on 32 bytes. *)
Fixpoint digestZ (c : Cell) : Z :=
  match c with
  | mkCell bits refs =>
      let h := fold_left (fun acc (x : bool) =>
                 (acc * 31 + (if x then 2 else 1)) mod 2 ^ 256) bits 7 in
      fold_left (fun acc r => (acc * 131 + digestZ r) mod 2 ^ 256) refs h
  end.

Definition digest (c : Cell) : Buffer :=
  bytesOfBits 32 (uintBits (digestZ c) 256).

(** A stand-in for ed25519: the public key is the seed reversed, and a
    signature is the digest followed by the public key. *)
Definition keyPairOf (seed : Buffer) : Res KeyPair :=
  if (length seed =? 32)%nat
  then Ret (mkKeyPair (rev seed) (seed ++ rev seed)%list)
  else Throw "bad seed size".

Definition sign (c : Cell) (secret : Buffer) : Res Buffer :=
  if (length secret =? 64)%nat
  then Ret (digest c ++ skipn 32 secret)%list
  else Throw "bad secret key size".

Definition verify (c : Cell) (sig pk : Buffer) : Res bool :=
  if negb (length sig =? 64)%nat then Throw "bad signature size"
  else if negb (length pk =? 32)%nat then Throw "bad public key size"
  else Ret (buffer_eqb sig (digest c ++ pk)%list).

(** A stand-in for the wallet decoder: the blob is a workchain byte
    followed by the 32-byte public key, and the account hash is the key. *)
Definition walletOf (blob : string) : Res (Buffer * Address) :=
  let data := decodeBase64 blob in
  if (length data =? 33)%nat
  then Ret (skipn 1 data,
            mkAddress (byteZ (nth 0 data x00)) (skipn 1 data))
  else Throw "Invalid wallet config".

(** A stand-in for the BOC codec, for cells without references: two
    bytes of bit length, then the data bits padded to whole bytes. *)
Definition bocOf (c : Cell) : Buffer :=
  let bits := cellBits c in
  (bytesOfBits 2 (uintBits (Z.of_nat (length bits)) 16)
     ++ bytesOfBits ((length bits + 7) / 8) (bits ++ repeat false 7))%list.

Definition cellOf (buf : Buffer) : Res Cell :=
  if (length buf <? 2)%nat then Throw "Invalid BOC"
  else
    let n := Z.to_nat (bitsToZ 0 (bufferBits (firstn 2 buf))) in
    let bits := bufferBits (skipn 2 buf) in
    if (n <=? length bits)%nat && (n <=? maxBits)%nat
    then Ret (mkCell (firstn n bits) [])
    else Throw "Invalid BOC".

(** [BigInt(s)] for decimal digits. *)
Fixpoint decimal (acc : Z) (s : string) : option Z :=
  match s with
  | EmptyString => Some acc
  | String c r =>
      let d := Z.of_nat (nat_of_ascii c) - 48 in
      if (0 <=? d) && (d <=? 9) then decimal (10 * acc + d) r else None
  end.

Definition bigInt (s : string) : Res Z :=
  match s with
  | EmptyString => Ret 0
  | _ => match decimal 0 s with
         | Some v => Ret v
         | None => Throw "Cannot convert to a BigInt"
         end
  end.

#[export] Instance platform : Platform := {|
  fromBase64 := decodeBase64;
  toBase64 := encodeBase64;
  parseFriendly := parseFriendlyAddress;
  walletV4FromConfig := walletOf;
  safeSignVerify := verify;
  safeSign := sign;
  keyPairFromSeed := keyPairOf;
  toUrlSafe := urlSafe;
  fromBoc := cellOf;
  toBoc := bocOf;
  parseBigInt := bigInt;
  backoffDelay := fun n => N.of_nat (250 * n);
  retryFuel := 5
|}.

(** A relay that answers from scripts indexed by the number of calls it
    has served; every round trip takes [rtt] ms. *)
Record Script : Type := mkScript {
  on_session_get : nat -> Res SessionState;
  on_session_wait : nat -> Res SessionState;
  on_command_new : nat -> Res unit;
  on_command_get : nat -> Res JobState;
  rtt : N
}.

Definition scripted (s : Script) : Transport nat := {|
  call_session_get := fun _ n => (on_session_get s n, S n, rtt s);
  call_session_wait := fun _ _ n => (on_session_wait s n, S n, rtt s);
  call_command_new := fun _ n => (on_command_new s n, S n, rtt s);
  call_command_get := fun _ n => (on_command_get s n, S n, rtt s)
|}.

Definition start : World nat := mkWorld 0%nat 0 [].

(** A relay that keeps the last job posted and reports it [completed] with
    the result [result]; its session answer is always [ex]. *)
Definition echoing (ex : SessionState) (result : string)
  : Transport (option string) := {|
  call_session_get := fun _ r => (Ret ex, r, 5%N);
  call_session_wait := fun _ _ r => (Ret ex, r, 5%N);
  call_command_new := fun job _ => (Ret tt, Some job, 5%N);
  call_command_get := fun _ r =>
    (match r with
     | Some job => Ret (Job_completed job 1000 2000 result 3000)
     | None => Ret (Job_empty 3000)
     end, r, 5%N)
|}.

Definition idle : World (option string) := mkWorld None 0 [].

End Reference.

(** ** The wallet-binding proof, as the specification lays it out *)

(** The bits [storeCoins(0)] writes: a zero byte count. *)
Definition zeroCoinsBits : list bool := [false; false; false; false].

(** The bits of an address: tag [10], no anycast, the workchain on 8 bits
    in two's complement, the account hash. *)
Definition addressBits (a : Address) : list bool :=
  [true; false] ++ [false] ++ uintBits (workChain a mod 256) 8
    ++ bufferBits (hash a).

(** Zero coins, the raw session-id bytes, the address, a set flag bit; then
    one child cell with the endpoint bytes and one with the bytes of the
    app public key. *)
Definition walletBindingProof {P : Platform} (session : string)
    (addr : Address) (config : TonhubWalletConfig) : Cell :=
  mkCell
    (zeroCoinsBits ++ bufferBits (fromBase64 session) ++ addressBits addr
       ++ [true])
    [ mkCell (bufferBits (utf8 (endpoint config))) [];
      mkCell (bufferBits (fromBase64 (appPublicKey config))) [] ].

(** Every cell of the proof is within the capacity of a cell, and the
    workchain fits its 8 bits. *)
Definition proofFits {P : Platform} (session : string) (addr : Address)
    (config : TonhubWalletConfig) : Prop :=
  (length (cellBits (walletBindingProof session addr config)) <= maxBits)%nat
  /\ (length (bufferBits (utf8 (endpoint config))) <= maxBits)%nat
  /\ (length (bufferBits (fromBase64 (appPublicKey config))) <= maxBits)%nat
  /\ -128 <= workChain addr < 128.

(** Two strings of the same length that differ at exactly one position. *)
Fixpoint oneByteChanged (s t : string) : bool :=
  match s, t with
  | String a s', String b t' =>
      if Ascii.eqb a b then oneByteChanged s' t' else String.eqb s' t'
  | _, _ => false
  end.

(** ** Sample data *)

Module Samples.

Import Reference.

(** A session id: the url-safe base64 of 32 bytes of value 1. *)
Definition session : string :=
  "AQEBAQEBAQEBAQEBAQEBAQEBAQEBAQEBAQEBAQEBAQE".

(** The friendly form of the address with workchain 0 and a zero hash. *)
Definition zeroAddress : string :=
  "EQAAAAAAAAAAAAAAAAAAAAAAAAAAAAAAAAAAAAAAAAAAAM9c".

(** A wallet config that the reference platform accepts for [session]. *)
Definition wallet : TonhubWalletConfig := {|
  address := zeroAddress;
  endpoint := "https://connect.tonhubapi.com";
  walletType := "org.ton.wallets.v4";
  walletConfig := "AAAAAAAAAAAAAAAAAAAAAAAAAAAAAAAAAAAAAAAAAAAA";
  walletSig :=
    "KTJK9mJR5VKI6utp/k8g9GjEdJFlWU9Mr/it/FwCnwcAAAAAAAAAAAAAAAAAAAAAAAAAAAAAAAAAAAAAAAAAAA==";
  appPublicKey := "AQEBAQEBAQEBAQEBAQEBAQEBAQEBAQEBAQEBAQEBAQE="
|}.

(** [wallet] with the last character of its address changed. *)
Definition walletAddressChanged : TonhubWalletConfig := {|
  address := "EQAAAAAAAAAAAAAAAAAAAAAAAAAAAAAAAAAAAAAAAAAAAM9d";
  endpoint := endpoint wallet;
  walletType := walletType wallet;
  walletConfig := walletConfig wallet;
  walletSig := walletSig wallet;
  appPublicKey := appPublicKey wallet
|}.

(** A config of an unknown wallet type whose address is not an address. *)
Definition walletMalformed : TonhubWalletConfig := {|
  address := "not an address";
  endpoint := "https://connect.tonhubapi.com";
  walletType := "org.ton.wallets.v9";
  walletConfig := "";
  walletSig := "";
  appPublicKey := ""
|}.

(** A config of an unknown wallet type with a well-formed address. *)
Definition walletUnknownType : TonhubWalletConfig := {|
  address := zeroAddress;
  endpoint := "https://connect.tonhubapi.com";
  walletType := "org.ton.wallets.v9";
  walletConfig := "";
  walletSig := "";
  appPublicKey := ""
|}.

(** [wallet] with a signature of the right size that does not verify. *)
Definition walletBadSig : TonhubWalletConfig := {|
  address := address wallet;
  endpoint := endpoint wallet;
  walletType := walletType wallet;
  walletConfig := walletConfig wallet;
  walletSig :=
    "AAAAAAAAAAAAAAAAAAAAAAAAAAAAAAAAAAAAAAAAAAAAAAAAAAAAAAAAAAAAAAAAAAAAAAAAAAAAAAAAAAAAAA==";
  appPublicKey := appPublicKey wallet
|}.

(** A relay record for a session still waiting for its wallet. *)
Definition rawIniting : SessionState :=
  Raw_initing "App" "https://app.example" false 1000 2000 false.

(** A [ready] mainnet record, not revoked, whose signature does not
    verify. *)
Definition rawReadyBadSig : SessionState :=
  Raw_ready "App" "https://app.example" walletBadSig false 1000 2000 false.

(** A [ready] mainnet record with the sample wallet. *)
Definition rawReady : SessionState :=
  Raw_ready "App" "https://app.example" wallet false 1000 2000 false.

(** A relay whose first answer is [rawReadyBadSig] and whose later
    answers are [rawIniting]. *)
Definition relayBadSigOnce : Script := {|
  on_session_get := fun n =>
    match n with O => Ret rawReadyBadSig | _ => Ret rawIniting end;
  on_session_wait := fun n =>
    match n with O => Ret rawReadyBadSig | _ => Ret rawIniting end;
  on_command_new := fun _ => Ret tt;
  on_command_get := fun _ => Ret (Job_empty 0);
  rtt := 5
|}.

(** A [ready] record of the test network, with the sample wallet. *)
Definition rawReadyTestnet : SessionState :=
  Raw_ready "App" "https://app.example" wallet true 1000 2000 false.

(** A relay whose every session answer is [ex]; a round trip takes 5 ms. *)
Definition relayAlways (ex : SessionState) : Script := {|
  on_session_get := fun _ => Ret ex;
  on_session_wait := fun _ => Ret ex;
  on_command_new := fun _ => Ret tt;
  on_command_get := fun _ => Ret (Job_empty 0);
  rtt := 5
|}.

(** A relay on which the session never leaves [initing]; its answers
    come at once. *)
Definition relayAlwaysIniting : Script := {|
  on_session_get := fun _ => Ret rawIniting;
  on_session_wait := fun _ => Ret rawIniting;
  on_command_new := fun _ => Ret tt;
  on_command_get := fun _ => Ret (Job_empty 0);
  rtt := 0
|}.

(** A relay that holds a job other than the one the client asks about,
    reported [completed]. *)
Definition relayForeignJob : Script := {|
  on_session_get := fun _ => Ret rawReady;
  on_session_wait := fun _ => Ret rawReady;
  on_command_new := fun _ => Ret tt;
  on_command_get := fun _ => Ret (Job_completed "job-a" 1000 2000 "res" 3000);
  rtt := 5
|}.

(** A sign request for the sample session: the seed is 32 bytes of value
    1, whose public key on the reference platform is the session id. *)
Definition signRequest : TonhubSignRequest.t := {|
  TonhubSignRequest.seed := "AQEBAQEBAQEBAQEBAQEBAQEBAQEBAQEBAQEBAQEBAQE=";
  TonhubSignRequest.appPublicKey := appPublicKey wallet;
  TonhubSignRequest.timeout := 300000;
  TonhubSignRequest.text := Some "hello";
  TonhubSignRequest.payload := None
|}.

(** A transaction request for the sample session. *)
Definition transactionRequest : TonhubTransactionRequest.t := {|
  TonhubTransactionRequest.seed :=
    "AQEBAQEBAQEBAQEBAQEBAQEBAQEBAQEBAQEBAQEBAQE=";
  TonhubTransactionRequest.appPublicKey := appPublicKey wallet;
  TonhubTransactionRequest.to := zeroAddress;
  TonhubTransactionRequest.value := "1000000000";
  TonhubTransactionRequest.timeout := 300000;
  TonhubTransactionRequest.stateInit := None;
  TonhubTransactionRequest.text := Some "hello";
  TonhubTransactionRequest.payload := None
|}.

(** The payload a wallet signs in answer to [signRequest]: a cell that
    refers to the comment cell and to the empty payload cell. *)
Definition signedPayload : Cell :=
  mkCell [] [ match comment "hello" with Ret c => c | Throw _ => EMPTY end;
              EMPTY ].

(** A job result whose first 64 bytes are the wallet's signature of
    [signedPayload] on the reference platform. *)
Definition signedResult : string :=
  Eval vm_compute in
    encodeBase64
      (bocOf (mkCell (bufferBits (digest signedPayload ++ repeat x00 32)) [])).

(** A job result whose first 64 bytes are zero. *)
Definition unsignedResult : string :=
  Eval vm_compute in
    encodeBase64 (bocOf (mkCell (bufferBits (repeat x00 64)) [])).

(** The blob that [signRequest] posts to the echoing relay, and the world
    after the posting and after the polling. *)
Definition postedBoc : string :=
  Eval vm_compute in
    match fst (submitSign (T := echoing rawReady unsignedResult) mainnet
                 signRequest idle) with
    | Returns (Some (_, boc)) => boc
    | _ => ""
    end.

Definition postedWorld : World (option string) :=
  Eval vm_compute in
    snd (submitSign (T := echoing rawReady unsignedResult) mainnet
           signRequest idle).

Definition polledWorld : World (option string) :=
  Eval vm_compute in
    snd (requestSign (T := echoing rawReady unsignedResult) mainnet 5
           signRequest idle).

End Samples.

(** ** More sample data *)

Module Scenarios.

Import Reference.

(** The comment cell of the text [hello]. *)
Definition helloCell : Cell :=
  Eval vm_compute in
    match comment "hello" with Ret c => c | Throw _ => EMPTY end.

(** The wallet's signature of [Samples.signedPayload] on the reference
    platform, in base64. *)
Definition helloSignature : string :=
  Eval vm_compute in
    encodeBase64 (digest Samples.signedPayload ++ repeat x00 32).

(** A relay on which the job [job-a] stays [submitted] for two polls and
    is then [completed]. *)
Definition relaySlowJob : Script := {|
  on_session_get := fun _ => Ret Samples.rawReady;
  on_session_wait := fun _ => Ret Samples.rawReady;
  on_command_new := fun _ => Ret tt;
  on_command_get := fun n =>
    if (n <? 2)%nat then Ret (Job_pending submitted "job-a" 1000 2000 3000)
    else Ret (Job_completed "job-a" 1000 2000 "res" 3000);
  rtt := 5
|}.

(** A relay on which the job [job-a] stays [submitted]. *)
Definition relayStuckJob : Script := {|
  on_session_get := fun _ => Ret Samples.rawReady;
  on_session_wait := fun _ => Ret Samples.rawReady;
  on_command_new := fun _ => Ret tt;
  on_command_get := fun _ => Ret (Job_pending submitted "job-a" 1000 2000 3000);
  rtt := 5
|}.

(** A relay that accepts every registration, and one that refuses them
    all. *)
Definition accepting : Registrar nat := {|
  call_session_new := fun _ _ _ _ r => (Ret true, S r, 5%N)
|}.

Definition refusing : Registrar nat := {|
  call_session_new := fun _ _ _ _ r => (Ret false, S r, 5%N)
|}.

(** The session created from a seed of 32 bytes of value 1 on the
    accepting relay. *)
Definition created : TonhubCreatedSession.t := {|
  TonhubCreatedSession.id := Samples.session;
  TonhubCreatedSession.seed := "AQEBAQEBAQEBAQEBAQEBAQEBAQEBAQEBAQEBAQEBAQE=";
  TonhubCreatedSession.link :=
    "ton://connect/AQEBAQEBAQEBAQEBAQEBAQEBAQEBAQEBAQEBAQEBAQE?endpoint=connect.tonhubapi.com"
|}.

(** The transaction job for one TON to the zero address with the text
    [hello], expiring at 300. *)
Definition sampleJob : Cell :=
  Eval vm_compute in
    match transactionJob (appPublicKey Samples.wallet) 300
            (mkAddress 0 (repeat x00 32)) 1000000000 "hello" None None with
    | Ret c => c
    | Throw _ => EMPTY
    end.


(** The sample sign request without a text. *)
Definition textlessRequest : TonhubSignRequest.t := {|
  TonhubSignRequest.seed := "AQEBAQEBAQEBAQEBAQEBAQEBAQEBAQEBAQEBAQEBAQE=";
  TonhubSignRequest.appPublicKey := appPublicKey Samples.wallet;
  TonhubSignRequest.timeout := 300000;
  TonhubSignRequest.text := None;
  TonhubSignRequest.payload := None
|}.

(** The child cell of the sign job that [requestSign] builds for it: it
    refers to [comment('')] and to the empty payload cell. *)
Definition textlessChild : Cell :=
  mkCell [] [ mkCell (repeat false 32) []; EMPTY ].

(** The wallet's signature of [textlessChild] on the reference platform,
    and a job result whose first 64 bytes are that signature. *)
Definition textlessSignature : Buffer :=
  Eval vm_compute in (digest textlessChild ++ repeat x00 32)%list.

Definition textlessResult : string :=
  Eval vm_compute in
    encodeBase64 (bocOf (mkCell (bufferBits textlessSignature) [])).

End Scenarios.

(** ** Predicates of the statements *)

(** The record carries a network flag and it is not the client's. *)
Definition networkMismatch (network : Network) (ex : SessionState) : Prop :=
  exists tn, rawTestnet ex = Some tn /\ tn <> isTestnet network.

(** A [ready] record flagged revoked. *)
Definition readyRevoked (ex : SessionState) : Prop :=
  match ex with
  | Raw_ready _ _ _ _ _ _ revoked => revoked = true
  | _ => False
  end.

(** A [ready] record, not revoked, of the client's network, whose wallet
    config [verifyWalletConfig] answers false for. *)
Definition readyUnverified {P : Platform} (network : Network)
    (sessionId : string) (ex : SessionState) : Prop :=
  match ex with
  | Raw_ready _ _ wallet tn _ _ revoked =>
      revoked = false /\ tn = isTestnet network
      /\ verifyWalletConfig sessionId wallet = Ret false
  | _ => False
  end.

(** The session is not [ready], or its wallet is bound to another key. *)
Definition refusedFor (appKey : string) (session : TonhubSessionState)
  : Prop :=
  match session with
  | State_ready _ _ _ _ wallet => appPublicKey wallet <> appKey
  | _ => True
  end.

(** Every call that [m] adds to the log satisfies [Q]. *)
Definition logsOnly {R A : Type} (Q : Call -> Prop) (m : M R A) : Prop :=
  forall w out w', m w = (out, w') ->
    exists l, calls w' = calls w ++ l /\ Forall Q l.

(** The bits [storeCoins(1)] writes: one byte of amount, of value 1. *)
Definition oneCoinBits : list bool := uintBits 1 4 ++ uintBits 1 8.

(** The record says [submitted] for the blob [boc]. *)
Definition stillSubmitted (boc : string) (a : JobState) : Prop :=
  exists created updated now, a = Job_pending submitted boc created updated now.

(** From the state [r] on, the relay answers the next [command_get] calls
    for [appk] with the records of [answers], in this order. *)
Fixpoint jobAnswers {R : Type} {T : Transport R} (appk : string) (r : R)
    (answers : list JobState) : Prop :=
  match answers with
  | [] => True
  | a :: rest =>
      exists r' d,
        call_command_get appk r = (Ret a, r', d) /\ jobAnswers appk r' rest
  end.

(** The bits [storeCoins(amount)] writes: the number of bytes of the
    amount on 4 bits, then the amount on that many bytes. *)
Definition coinsBits (amount : Z) : list bool :=
  uintBits (coinsBytes amount) 4
    ++ uintBits amount (Z.to_nat (8 * coinsBytes amount)).

(** The flag bit and the reference of an optional cell. *)
Definition maybeBit (c : option Cell) : list bool :=
  match c with Some _ => [true] | None => [false] end.

Definition maybeRef (c : option Cell) : list Cell :=
  match c with Some c' => [c'] | None => [] end.

(** Closed statements below run on the reference platform. *)
#[local] Existing Instance Reference.platform.

(** * Properties *)

(** ** Results, buffers and addresses *)

Lemma rbind_Ret_inv {A B : Type} (r : Res A) (k : A -> Res B) (b : B) :
  rbind r k = Ret b -> exists a, r = Ret a /\ k a = Ret b.
Proof.
  destruct r as [a | msg]; simpl; intros H; [eauto | discriminate].
Qed.

Lemma buffer_eqb_eq (a b : Buffer) : buffer_eqb a b = true <-> a = b.
Proof.
  unfold buffer_eqb. destruct (list_eq_dec Byte.byte_eq_dec a b); split;
    intros; try discriminate; congruence.
Qed.

Lemma equals_eq (a b : Address) : equals a b = true <-> a = b.
Proof.
  unfold equals. destruct a as [wa ha], b as [wb hb]; simpl.
  destruct (wb =? wa) eqn:E; simpl.
  - apply Z.eqb_eq in E. rewrite buffer_eqb_eq. split; intros H.
    + subst. reflexivity.
    + inversion H. reflexivity.
  - apply Z.eqb_neq in E. split; intros H; [discriminate|].
    inversion H. subst. contradiction.
Qed.

(** ** Checks of the cell model and of the reference platform *)

Example storeCoins_one_ton :
  storeCoins 1000000000 beginCell
  = Ret (mkBuilder (uintBits 4 4 ++ uintBits 1000000000 32) []).
Proof. vm_compute. reflexivity. Qed.

Example comment_hi :
  comment "hi"
  = Ret (mkCell (repeat false 32 ++ bufferBits (utf8 "hi")) []).
Proof. vm_compute. reflexivity. Qed.

Example base64_hello :
  Reference.encodeBase64 (utf8 "hello") = "aGVsbG8="
  /\ Reference.decodeBase64 "aGVsbG8=" = utf8 "hello".
Proof. split; vm_compute; reflexivity. Qed.

(** The zero address of the base chain and the elector address of the
    master chain, in their friendly forms. *)
Example parseFriendly_known_addresses :
  Reference.parseFriendlyAddress
    "EQAAAAAAAAAAAAAAAAAAAAAAAAAAAAAAAAAAAAAAAAAAAM9c"
  = Ret (mkAddress 0 (repeat x00 32))
  /\ Reference.parseFriendlyAddress
       "Ef8zMzMzMzMzMzMzMzMzMzMzMzMzMzMzMzMzMzMzMzMzM0vF"
     = Ret (mkAddress (-1) (repeat x33 32)).
Proof. split; vm_compute; reflexivity. Qed.

Example toUrlSafe_session :
  Reference.urlSafe "AQEBAQEBAQEBAQEBAQEBAQEBAQEBAQEBAQEBAQEBAQE="
  = Samples.session.
Proof. vm_compute. reflexivity. Qed.

(** ** Builders *)

Lemma storeBits_Ret (bs : list bool) (b : Builder) :
  (length (b_bits b) + length bs <= maxBits)%nat ->
  storeBits bs b = Ret (mkBuilder (b_bits b ++ bs) (b_refs b)).
Proof.
  intros H. unfold storeBits.
  destruct (Nat.leb_spec (length (b_bits b) + length bs) maxBits);
    [reflexivity | lia].
Qed.

Lemma storeBits_inv (bs : list bool) (b b' : Builder) :
  storeBits bs b = Ret b' ->
  (length (b_bits b) + length bs <= maxBits)%nat
  /\ b' = mkBuilder (b_bits b ++ bs) (b_refs b).
Proof.
  unfold storeBits.
  destruct (Nat.leb_spec (length (b_bits b) + length bs) maxBits);
    intros E; [| discriminate].
  inversion E. split; [assumption | reflexivity].
Qed.

Lemma storeRef_Ret (c : Cell) (b : Builder) :
  (length (b_refs b) < maxRefs)%nat ->
  storeRef c b = Ret (mkBuilder (b_bits b) (b_refs b ++ [c])).
Proof.
  intros H. unfold storeRef.
  destruct (Nat.ltb_spec (length (b_refs b)) maxRefs); [reflexivity | lia].
Qed.

Lemma uintBits_length (v : Z) (w : nat) : length (uintBits v w) = w.
Proof.
  unfold uintBits. now rewrite length_map, length_rev, length_seq.
Qed.

Lemma bufferBits_length (buf : Buffer) :
  length (bufferBits buf) = (8 * length buf)%nat.
Proof.
  induction buf as [| x r IH]; [reflexivity |].
  unfold bufferBits in *. cbn [flat_map]. rewrite length_app, IH.
  unfold byteBits. rewrite uintBits_length. cbn [length]. lia.
Qed.

Lemma storeInt8_Ret (v : Z) (b : Builder) :
  -128 <= v < 128 ->
  storeInt v 8 b = storeBits (uintBits (v mod 256) 8) b.
Proof.
  intros H. unfold storeInt.
  change (2 ^ (Z.of_nat 8 - 1)) with 128. change (2 ^ Z.of_nat 8) with 256.
  destruct (Z.leb_spec (- (128)) v); [| lia].
  destruct (Z.ltb_spec v 128); [reflexivity | lia].
Qed.

Lemma storeInt8_inv (v : Z) (b b' : Builder) :
  storeInt v 8 b = Ret b' ->
  -128 <= v < 128 /\ storeBits (uintBits (v mod 256) 8) b = Ret b'.
Proof.
  unfold storeInt.
  change (2 ^ (Z.of_nat 8 - 1)) with 128. change (2 ^ Z.of_nat 8) with 256.
  destruct (Z.leb_spec (- (128)) v); simpl; [| discriminate].
  destruct (Z.ltb_spec v 128); simpl; [| discriminate].
  intros E. split; [lia | assumption].
Qed.

(** [storeCoins(0)] appends the four zero bits. *)
Lemma storeCoins_zero (b : Builder) :
  storeCoins 0 b =
  let! b1 := storeBits zeroCoinsBits b in storeBits [] b1.
Proof. reflexivity. Qed.

(** [storeAddress] appends [addressBits], when the workchain fits. *)
Lemma storeAddress_Ret (a : Address) (b : Builder) :
  -128 <= workChain a < 128 ->
  (length (b_bits b) + length (addressBits a) <= maxBits)%nat ->
  storeAddress a b = Ret (mkBuilder (b_bits b ++ addressBits a) (b_refs b)).
Proof.
  intros Hw Hl. unfold storeAddress, addressBits in *.
  repeat rewrite length_app in Hl. simpl length in Hl.
  change (storeUint 2 2 b) with (storeBits [true; false] b).
  rewrite storeBits_Ret by (simpl; lia). simpl rbind.
  match goal with |- context [storeUint 0 1 ?x] =>
    change (storeUint 0 1 x) with (storeBits [false] x) end.
  rewrite storeBits_Ret by (simpl; rewrite length_app; simpl; lia).
  simpl rbind. rewrite storeInt8_Ret by assumption.
  rewrite storeBits_Ret
    by (simpl; repeat rewrite length_app; simpl; lia).
  simpl rbind. unfold storeBuffer.
  rewrite storeBits_Ret
    by (simpl; repeat rewrite length_app; simpl; lia).
  simpl. repeat rewrite <- app_assoc. reflexivity.
Qed.

Lemma storeAddress_inv (a : Address) (b b' : Builder) :
  storeAddress a b = Ret b' ->
  -128 <= workChain a < 128
  /\ (length (b_bits b) + length (addressBits a) <= maxBits)%nat
  /\ b' = mkBuilder (b_bits b ++ addressBits a) (b_refs b).
Proof.
  unfold storeAddress. intros H.
  apply rbind_Ret_inv in H. destruct H as (b1 & H1 & H).
  apply rbind_Ret_inv in H. destruct H as (b2 & H2 & H).
  apply rbind_Ret_inv in H. destruct H as (b3 & H3 & H).
  change (storeUint 2 2 b) with (storeBits [true; false] b) in H1.
  change (storeUint 0 1 b1) with (storeBits [false] b1) in H2.
  apply storeBits_inv in H1. destruct H1 as [L1 ->].
  apply storeBits_inv in H2. destruct H2 as [L2 ->].
  apply storeInt8_inv in H3. destruct H3 as [Hw H3].
  apply storeBits_inv in H3. destruct H3 as [L3 ->].
  apply storeBits_inv in H. destruct H as [L4 ->].
  simpl in *. unfold addressBits.
  repeat rewrite length_app in *. simpl length in *.
  repeat split; try lia.
  repeat rewrite <- app_assoc. reflexivity.
Qed.

(** One step of a builder chain: the bind is reduced and the builder
    flattened. *)
Ltac step :=
  cbn [rbind b_bits b_refs beginCell app]; repeat rewrite app_nil_r.

(** ** The wallet-config verifier *)

Section VerifierProperties.

Context {P : Platform}.

(** The builder calls of [verifyWalletConfig] produce exactly the
    wallet-binding proof, and fail only when a cell of it does not fit. *)
Lemma walletConfigToSign_spec (session : string) (addr : Address)
    (config : TonhubWalletConfig) (cell : Cell) :
  walletConfigToSign session addr config = Ret cell <->
  proofFits session addr config
  /\ cell = walletBindingProof session addr config.
Proof.
  unfold walletConfigToSign, proofFits, walletBindingProof.
  rewrite storeCoins_zero. cbn [cellBits]. split.
  - intros H.
    apply rbind_Ret_inv in H. destruct H as (b1 & H1 & H).
    apply rbind_Ret_inv in H1. destruct H1 as (b0 & H0 & H1).
    apply storeBits_inv in H0. destruct H0 as [_ ->].
    apply storeBits_inv in H1. destruct H1 as [_ ->].
    apply rbind_Ret_inv in H. destruct H as (b2 & H2 & H).
    apply storeBits_inv in H2. destruct H2 as [_ ->].
    apply rbind_Ret_inv in H. destruct H as (b3 & H3 & H).
    apply storeAddress_inv in H3. destruct H3 as (Hw & _ & ->).
    apply rbind_Ret_inv in H. destruct H as (b4 & H4 & H).
    apply storeBits_inv in H4. destruct H4 as [L4 ->].
    apply rbind_Ret_inv in H. destruct H as (e & He & H).
    apply storeBits_inv in He. destruct He as [Le ->].
    apply rbind_Ret_inv in H. destruct H as (b5 & H5 & H).
    apply rbind_Ret_inv in H. destruct H as (k & Hk & H).
    apply storeBits_inv in Hk. destruct Hk as [Lk ->].
    apply rbind_Ret_inv in H. destruct H as (b6 & H6 & H).
    cbn in H5. inversion H5; subst b5; clear H5.
    cbn in H6. inversion H6; subst b6; clear H6.
    inversion H; subst cell; clear H.
    cbn [b_bits b_refs beginCell app length] in *.
    repeat rewrite app_nil_r in *. repeat rewrite <- app_assoc in *.
    repeat rewrite length_app in *. cbn [length] in *.
    repeat split; try assumption; try lia.
  - intros [(L & Le & Lk & Hw) ->].
    repeat rewrite length_app in L. unfold zeroCoinsBits in *.
    cbn [length] in L.
    rewrite storeBits_Ret by (cbn; unfold maxBits; lia). step.
    rewrite storeBits_Ret by (cbn; unfold maxBits; lia). step.
    unfold storeBuffer at 1.
    rewrite storeBits_Ret by (cbn [b_bits app length]; lia). step.
    rewrite storeAddress_Ret;
      [| assumption
       | cbn [b_bits app length]; repeat rewrite length_app; lia].
    step. unfold storeBit.
    rewrite storeBits_Ret
      by (cbn [b_bits app length]; repeat rewrite length_app;
          cbn [length]; lia).
    step. unfold storeBuffer.
    rewrite storeBits_Ret by (cbn [b_bits beginCell app length]; lia).
    step.
    rewrite storeRef_Ret by (cbn; unfold maxRefs; lia). step.
    rewrite storeBits_Ret by (cbn [b_bits beginCell app length]; lia).
    step.
    rewrite storeRef_Ret by (cbn; unfold maxRefs; lia). step.
    cbn [endCell b_bits b_refs beginCell app].
    repeat rewrite <- app_assoc. reflexivity.
Qed.

End VerifierProperties.

Section VerifierTheorems.

Context {P : Platform}.

(** A config whose address string does not parse makes the verifier
    throw: the parser's exception is not caught. *)
Lemma verifyWalletConfig_parse_throws (session : string)
    (config : TonhubWalletConfig) (msg : string) :
  parseFriendly (address config) = Throw msg ->
  verifyWalletConfig session config = Throw msg.
Proof.
  intros H. unfold verifyWalletConfig. rewrite H. reflexivity.
Qed.

Lemma verifyWalletConfig_true (session : string)
    (config : TonhubWalletConfig) :
  verifyWalletConfig session config = Ret true <->
  exists addr pk,
    parseFriendly (address config) = Ret addr
    /\ extractPublicKeyAndAddress (walletType config) (walletConfig config)
       = Ret (Some (pk, addr))
    /\ proofFits session addr config
    /\ safeSignVerify (walletBindingProof session addr config)
         (fromBase64 (walletSig config)) pk = Ret true.
Proof.
  unfold verifyWalletConfig. split.
  - intros H.
    apply rbind_Ret_inv in H. destruct H as (addr & Ha & H).
    apply rbind_Ret_inv in H. destruct H as (extracted & He & H).
    destruct extracted as [[pk ea] |]; [| discriminate].
    destruct (equals ea addr) eqn:Eq; cbn [negb] in H; [| discriminate].
    apply equals_eq in Eq. subst ea.
    apply rbind_Ret_inv in H. destruct H as (toSign & Ht & H).
    apply walletConfigToSign_spec in Ht. destruct Ht as [Hf ->].
    exists addr, pk. auto.
  - intros (addr & pk & Ha & He & Hf & Hs).
    rewrite Ha. cbn [rbind]. rewrite He. cbn [rbind].
    assert (Eq : equals addr addr = true) by (now apply equals_eq).
    rewrite Eq. cbn [negb].
    assert (Ht : walletConfigToSign session addr config
                 = Ret (walletBindingProof session addr config))
      by (apply walletConfigToSign_spec; split; [assumption | reflexivity]).
    rewrite Ht. cbn [rbind]. exact Hs.
Qed.

End VerifierTheorems.

(** C1 (as amended).  [verifyWalletConfig] returns true exactly when the
    address string parses, the wallet decoder yields a key and that same
    address, the cells of the wallet-binding proof fit, and [walletSig] is a
    valid signature under the decoded key over the proof: zero coins, the
    raw session-id bytes, the parsed address, a set flag bit, a child cell
    with the endpoint bytes and a child cell with the appPublicKey bytes.
    When the address string does not parse the call throws; it does not
    return false. *)
Theorem verifyWalletConfig_true_iff_signed_proof {P : Platform}
    (session : string) (config : TonhubWalletConfig) :
  (verifyWalletConfig session config = Ret true <->
   exists addr pk,
     parseFriendly (address config) = Ret addr
     /\ extractPublicKeyAndAddress (walletType config) (walletConfig config)
        = Ret (Some (pk, addr))
     /\ proofFits session addr config
     /\ safeSignVerify (walletBindingProof session addr config)
          (fromBase64 (walletSig config)) pk = Ret true)
  /\ (forall msg, parseFriendly (address config) = Throw msg ->
      verifyWalletConfig session config = Throw msg).
Proof.
  split.
  - apply verifyWalletConfig_true.
  - intros msg. apply verifyWalletConfig_parse_throws.
Qed.

(** The reference platform accepts the sample wallet, so the conditions of
    C1 hold for it. *)
Lemma verifyWalletConfig_sample_signed_proof :
  exists addr pk,
    parseFriendly (address Samples.wallet) = Ret addr
    /\ extractPublicKeyAndAddress (walletType Samples.wallet)
         (walletConfig Samples.wallet) = Ret (Some (pk, addr))
    /\ proofFits Samples.session addr Samples.wallet
    /\ safeSignVerify (walletBindingProof Samples.session addr Samples.wallet)
         (fromBase64 (walletSig Samples.wallet)) pk = Ret true.
Proof.
  apply (proj1 (proj1 (verifyWalletConfig_true_iff_signed_proof
                         Samples.session Samples.wallet))).
  vm_compute. reflexivity.
Defined.

(** C1, counterexample.  The sample wallet verifies; with one character of
    its address changed the checksum of the address fails and the call
    throws instead of returning false. *)
Lemma verifyWalletConfig_address_byte_changed_throws :
  verifyWalletConfig Samples.session Samples.wallet = Ret true
  /\ oneByteChanged (address Samples.wallet)
       (address Samples.walletAddressChanged) = true
  /\ (exists msg,
        verifyWalletConfig Samples.session Samples.walletAddressChanged
        = Throw msg)
  /\ verifyWalletConfig Samples.session Samples.walletAddressChanged
     <> Ret false.
Proof.
  split; [vm_compute; reflexivity |].
  split; [vm_compute; reflexivity |].
  split; [eexists; vm_compute; reflexivity |].
  vm_compute. discriminate.
Qed.

(** C6 (as amended).  When the address string parses, an unknown wallet
    type gives false.  When the address string does not parse, or the
    wallet decoder throws on the config blob, the call throws: the verifier
    has no handler. *)
Theorem verifyWalletConfig_false_or_throws {P : Platform}
    (session : string) (config : TonhubWalletConfig) :
  (forall addr, parseFriendly (address config) = Ret addr ->
     walletType config <> "org.ton.wallets.v4" ->
     verifyWalletConfig session config = Ret false)
  /\ (forall msg, parseFriendly (address config) = Throw msg ->
      verifyWalletConfig session config = Throw msg)
  /\ (forall addr msg, parseFriendly (address config) = Ret addr ->
      walletType config = "org.ton.wallets.v4" ->
      walletV4FromConfig (walletConfig config) = Throw msg ->
      verifyWalletConfig session config = Throw msg).
Proof.
  repeat split.
  - intros addr Ha Ht. unfold verifyWalletConfig, extractPublicKeyAndAddress.
    rewrite Ha. cbn [rbind].
    destruct (String.eqb_spec (walletType config) "org.ton.wallets.v4");
      [contradiction | reflexivity].
  - intros msg. apply verifyWalletConfig_parse_throws.
  - intros addr msg Ha Ht Hd.
    unfold verifyWalletConfig, extractPublicKeyAndAddress.
    rewrite Ha, Ht, Hd. reflexivity.
Qed.

(** On the reference platform a wallet of an unknown type with a
    well-formed address is refused with false. *)
Lemma verifyWalletConfig_unknown_type_false :
  verifyWalletConfig Samples.session Samples.walletUnknownType = Ret false.
Proof.
  apply (proj1 (verifyWalletConfig_false_or_throws Samples.session
                  Samples.walletUnknownType)
           (mkAddress 0 (repeat x00 32))).
  - vm_compute. reflexivity.
  - vm_compute. discriminate.
Defined.

(** C6, counterexample.  A config of an unknown wallet type whose address
    string is malformed makes [verifyWalletConfig] throw. *)
Lemma verifyWalletConfig_malformed_address_throws :
  (exists msg,
     verifyWalletConfig Samples.session Samples.walletMalformed = Throw msg)
  /\ verifyWalletConfig Samples.session Samples.walletMalformed <> Ret false.
Proof.
  split; [eexists; vm_compute; reflexivity | vm_compute; discriminate].
Qed.

(** ** Comment cells *)

Lemma writeBuffer_unfold (fuel : nat) (src : Buffer) (b : Builder) :
  writeBuffer (S fuel) src b =
  if (0 <? length src)%nat then
    if (availableBits b / 8 <? length src)%nat then
      let! b1 := storeBuffer (firstn (availableBits b / 8) src) b in
      let! bb := writeBuffer fuel (skipn (availableBits b / 8) src)
                   beginCell in
      storeRef (endCell bb) b1
    else storeBuffer src b
  else Ret b.
Proof. reflexivity. Qed.

(** With one unit of fuel per 127 bytes, a text of any length is written
    into a fresh cell and its chain of children. *)
Lemma writeBuffer_fresh_total (fuel : nat) :
  forall src : Buffer,
    (length src <= 127 * S fuel)%nat ->
    exists bb, writeBuffer (S fuel) src beginCell = Ret bb.
Proof.
  induction fuel as [| fuel IH]; intros src Hl; rewrite writeBuffer_unfold;
    (destruct (Nat.ltb_spec 0 (length src)) as [Hpos | Hz]; [| eauto]);
    change (availableBits beginCell / 8)%nat with 127%nat;
    destruct (Nat.ltb_spec 127 (length src)) as [Hbig | Hsmall];
    try lia; unfold storeBuffer.
  - rewrite storeBits_Ret
      by (rewrite bufferBits_length; cbn [b_bits beginCell length];
          unfold maxBits; lia).
    eauto.
  - rewrite storeBits_Ret
      by (rewrite bufferBits_length, length_firstn;
          cbn [b_bits beginCell length]; unfold maxBits; lia).
    cbn [rbind].
    destruct (IH (skipn 127 src)) as (bb & Hbb);
      [rewrite length_skipn; lia |].
    rewrite Hbb. cbn [rbind].
    rewrite storeRef_Ret by (cbn; unfold maxRefs; lia). eauto.
  - rewrite storeBits_Ret
      by (rewrite bufferBits_length; cbn [b_bits beginCell length];
          unfold maxBits; lia).
    eauto.
Qed.

(** [storeStringTail] succeeds on any builder that is within capacity and
    has a free reference. *)
Lemma storeStringTail_total (src : string) (b : Builder) :
  (length (b_bits b) <= maxBits)%nat ->
  (length (b_refs b) < maxRefs)%nat ->
  exists b', storeStringTail src b = Ret b'.
Proof.
  intros Hb Hr. unfold storeStringTail. generalize (utf8 src). intros buf.
  rewrite writeBuffer_unfold.
  destruct (Nat.ltb_spec 0 (length buf)) as [Hpos | Hz]; [| eauto].
  assert (Hdiv : (8 * (availableBits b / 8) <= availableBits b)%nat)
    by (apply Nat.Div0.mul_div_le).
  unfold availableBits in *.
  destruct (Nat.ltb_spec ((maxBits - length (b_bits b)) / 8) (length buf))
    as [Hbig | Hsmall].
  - unfold storeBuffer.
    rewrite storeBits_Ret
      by (rewrite bufferBits_length, length_firstn; lia).
    cbn [rbind].
    destruct buf as [| x buf']; [simpl in Hpos; lia |].
    destruct (writeBuffer_fresh_total (length buf')
                (skipn ((maxBits - length (b_bits b)) / 8) (x :: buf')))
      as (bb & Hbb).
    { rewrite length_skipn. cbn [length]. lia. }
    cbn [length]. rewrite Hbb. cbn [rbind].
    rewrite storeRef_Ret by (cbn; lia). eauto.
  - unfold storeBuffer.
    rewrite storeBits_Ret by (rewrite bufferBits_length; lia). eauto.
Qed.

(** [comment] returns a cell for every text. *)
Lemma comment_total (src : string) : exists c, comment src = Ret c.
Proof.
  unfold comment.
  change (storeUint 0 32 beginCell)
    with (Ret (mkBuilder (uintBits 0 32) [])).
  cbn [rbind].
  destruct (storeStringTail_total src (mkBuilder (uintBits 0 32) []))
    as (b' & Hb').
  - cbn. unfold maxBits. lia.
  - cbn. unfold maxRefs. lia.
  - rewrite Hb'. cbn [rbind]. eauto.
Qed.

(** X23.  For every non-empty text, the comment cell that [requestSign]
    puts into the sign job and the comment cell that
    [verifySignatureResponse] rebuilds are the same cell, [comment(text)],
    and that cell can be built whatever the length of the text. *)
Theorem sign_and_verify_comment_cells_agree (t : string) :
  t <> "" ->
  signCommentCell (Some t) = responseTextCell (Some t)
  /\ exists c, signCommentCell (Some t) = Ret c.
Proof.
  intros Hne. unfold signCommentCell, responseTextCell, truthy, commentMsgOf.
  destruct (String.eqb_spec t ""); [contradiction |]. cbn [negb].
  split; [reflexivity | apply comment_total].
Qed.

Lemma sign_and_verify_comment_cells_agree_hello :
  signCommentCell (Some "hello") = responseTextCell (Some "hello")
  /\ exists c, signCommentCell (Some "hello") = Ret c.
Proof.
  apply (sign_and_verify_comment_cells_agree "hello"). discriminate.
Defined.

(** C8.  The two paths do not use one encoding: for an absent text and
    for the empty string [requestSign] puts [comment('')], a cell of 32
    zero bits, into the sign job, since it builds the comment cell without
    a test of the text, while [verifySignatureResponse], which has the test
    [args.text ? comment(args.text) : Cell.EMPTY], rebuilds the empty
    cell.  What follows for a request without text, on the reference
    platform: the sign job has [Scenarios.textlessChild] as its child cell;
    the relay reports the job [completed] with the wallet's signature of
    that very cell; and [requestSign] answers [rejected], because
    [verifySignatureResponse] checks the signature against the cell with
    the empty comment cell. *)
Lemma sign_and_verify_comment_cells_differ_without_text :
  signCommentCell None = Ret (mkCell (repeat false 32) [])
  /\ responseTextCell None = Ret EMPTY
  /\ signCommentCell None <> responseTextCell None
  /\ signCommentCell (Some "") = Ret (mkCell (repeat false 32) [])
  /\ responseTextCell (Some "") = Ret EMPTY
  /\ signCommentCell (Some "") <> responseTextCell (Some "")
  /\ (exists job rest,
        signJob (appPublicKey Samples.wallet) 300
          (mkCell (repeat false 32) []) EMPTY = Ret job
        /\ job = mkCell rest [Scenarios.textlessChild])
  /\ safeSignVerify Scenarios.textlessChild Scenarios.textlessSignature
       (repeat x00 32) = Ret true
  /\ resultSignature Scenarios.textlessResult
     = Ret (toBase64 Scenarios.textlessSignature)
  /\ verifySignatureResponse (toBase64 Scenarios.textlessSignature) None None
       Samples.wallet = Ret false
  /\ fst (requestSign
            (T := Reference.echoing Samples.rawReady
                    Scenarios.textlessResult)
            mainnet 5 Scenarios.textlessRequest Reference.idle)
     = Returns Sign_rejected.
Proof.
  split; [vm_compute; reflexivity |].
  split; [vm_compute; reflexivity |].
  split; [vm_compute; discriminate |].
  split; [vm_compute; reflexivity |].
  split; [vm_compute; reflexivity |].
  split; [vm_compute; discriminate |].
  split; [do 2 eexists; split; vm_compute; reflexivity |].
  split; [vm_compute; reflexivity |].
  split; [vm_compute; reflexivity |].
  split; vm_compute; reflexivity.
Qed.

(** ** The monad of relay calls *)

Section MonadLemmas.

Context {R : Type}.

Lemma bind_Returns {A B : Type} (m : M R A) (k : A -> M R B)
    (w w1 : World R) (a : A) :
  m w = (Returns a, w1) -> bind m k w = k a w1.
Proof. intros H. unfold bind. rewrite H. reflexivity. Qed.

Lemma bind_Throws {A B : Type} (m : M R A) (k : A -> M R B)
    (w w1 : World R) (msg : string) :
  m w = (Throws msg, w1) -> bind m k w = (Throws msg, w1).
Proof. intros H. unfold bind. rewrite H. reflexivity. Qed.

Lemma bind_Returns_inv {A B : Type} (m : M R A) (k : A -> M R B)
    (w w' : World R) (b : B) :
  bind m k w = (Returns b, w') ->
  exists a w1, m w = (Returns a, w1) /\ k a w1 = (Returns b, w').
Proof.
  unfold bind. destruct (m w) as [[a | msg |] w1]; intros H;
    try discriminate. eauto.
Qed.

Lemma lift_Returns_inv {A : Type} (r : Res A) (w w' : World R) (a : A) :
  lift r w = (Returns a, w') -> r = Ret a /\ w' = w.
Proof.
  unfold lift. destruct r; intros H; inversion H; subst; auto.
Qed.


Lemma logsOnly_lift {A : Type} (Q : Call -> Prop) (r : Res A) :
  logsOnly Q (lift (R := R) r).
Proof.
  intros w out w' H. unfold lift in H.
  destruct r; inversion H; subst; exists []; rewrite app_nil_r; auto.
Qed.

Lemma logsOnly_dateNow (Q : Call -> Prop) : logsOnly Q (dateNow (R := R)).
Proof.
  intros w out w' H. inversion H; subst. exists []. rewrite app_nil_r. auto.
Qed.


Lemma logsOnly_transportCall {A : Type} (Q : Call -> Prop) (c : Call)
    (f : R -> Res A * R * N) :
  Q c -> logsOnly Q (transportCall c f).
Proof.
  intros Hc w out w' H. unfold transportCall in H.
  destruct (f (relay w)) as [[r relay1] elapsed].
  exists [c]. destruct r; inversion H; subst; cbn; auto.
Qed.

Lemma logsOnly_bind {A B : Type} (Q : Call -> Prop) (m : M R A)
    (k : A -> M R B) :
  logsOnly Q m -> (forall a, logsOnly Q (k a)) -> logsOnly Q (bind m k).
Proof.
  intros Hm Hk w out w' H. unfold bind in H.
  destruct (m w) as [o w1] eqn:E.
  destruct (Hm _ _ _ E) as (l1 & E1 & F1).
  destruct o as [a | msg |].
  - destruct (Hk a _ _ _ H) as (l2 & E2 & F2).
    exists (l1 ++ l2). rewrite E2, E1, app_assoc. split; [reflexivity |].
    apply Forall_app. auto.
  - inversion H; subst. eauto.
  - inversion H; subst. eauto.
Qed.

End MonadLemmas.

(** ** Retries *)

Section BackoffLemmas.

Context {P : Platform} {R : Type} {T : Transport R}.

(** A callback that returns is not run again. *)
Lemma backoffFrom_Returns {A : Type} (fuel failures : nat)
    (callback : M R A) (w w' : World R) (a : A) :
  callback w = (Returns a, w') ->
  backoffFrom fuel failures callback w = (Returns a, w').
Proof. intros H. destruct fuel; cbn; rewrite H; reflexivity. Qed.

Lemma backoff_Returns {A : Type} (callback : M R A) (w w' : World R)
    (a : A) :
  callback w = (Returns a, w') -> backoff callback w = (Returns a, w').
Proof. apply backoffFrom_Returns. Qed.

(** A failure with fuel left: pause, then run the callback again. *)
Lemma backoffFrom_retry {A : Type} (fuel failures : nat)
    (callback : M R A) (w w1 : World R) (msg : string) :
  callback w = (Throws msg, w1) ->
  backoffFrom (S fuel) failures callback w =
  backoffFrom fuel (countFailure failures) callback
    (mkWorld (relay w1)
       (clock w1 + Z.of_N (backoffDelay (countFailure failures)))
       (calls w1)).
Proof. intros H. cbn. rewrite H. reflexivity. Qed.

(** What [backoff] returns was returned by a run of its callback. *)
Lemma backoffFrom_Returns_inv {A : Type} (fuel : nat) :
  forall (failures : nat) (callback : M R A) (w w' : World R) (a : A),
    backoffFrom fuel failures callback w = (Returns a, w') ->
    exists w0, callback w0 = (Returns a, w').
Proof.
  induction fuel as [| fuel IH]; intros failures callback w w' a H;
    cbn in H; destruct (callback w) as [[x | msg |] w1] eqn:E;
    try discriminate; try (inversion H; subst; eauto; fail).
  eapply IH. exact H.
Qed.

Lemma logsOnly_backoffFrom {A : Type} (Q : Call -> Prop) (fuel : nat) :
  forall (failures : nat) (callback : M R A),
    logsOnly Q callback -> logsOnly Q (backoffFrom fuel failures callback).
Proof.
  induction fuel as [| fuel IH]; intros failures callback Hc w out w' H;
    cbn in H; destruct (callback w) as [[x | msg |] w1] eqn:E;
    try (inversion H; subst; eapply Hc; eassumption).
  destruct (Hc _ _ _ E) as (l1 & E1 & F1).
  destruct (IH _ _ Hc _ _ _ H) as (l2 & E2 & F2).
  cbn in E2. exists (l1 ++ l2). rewrite E2, E1, app_assoc.
  split; [reflexivity | apply Forall_app; auto].
Qed.

Lemma logsOnly_backoff {A : Type} (Q : Call -> Prop) (callback : M R A) :
  logsOnly Q callback -> logsOnly Q (backoff callback).
Proof. apply logsOnly_backoffFrom. Qed.

(** No error leaves [backoff]: a run of it returns or is cut. *)
Lemma backoffFrom_never_throws {A : Type} (fuel : nat) :
  forall (failures : nat) (callback : M R A) (w w' : World R) (msg : string),
    backoffFrom fuel failures callback w <> (Throws msg, w').
Proof.
  induction fuel as [| fuel IH]; intros failures callback w w' msg H;
    cbn in H; destruct (callback w) as [[x | msg0 |] w1] eqn:E;
    try discriminate.
  eapply IH. exact H.
Qed.

Lemma backoff_never_throws {A : Type} (callback : M R A) (w w' : World R)
    (msg : string) :
  backoff callback w <> (Throws msg, w').
Proof. apply backoffFrom_never_throws. Qed.

(** A callback that fails in every world, logging one call [c] each
    time, is run again as long as there is fuel: the run is cut after one
    call more than the fuel. *)
Lemma backoffFrom_always_fails {A : Type} (callback : M R A) (c : Call) :
  (forall w, exists msg w1, callback w = (Throws msg, w1)
                            /\ calls w1 = calls w ++ [c]) ->
  forall fuel failures w,
    exists w', backoffFrom fuel failures callback w = (OutOfFuel, w')
               /\ calls w' = calls w ++ repeat c (S fuel).
Proof.
  intros Hc. induction fuel as [| fuel IH]; intros failures w;
    destruct (Hc w) as (msg & w1 & E & L).
  - exists w1. cbn. rewrite E. auto.
  - rewrite (backoffFrom_retry _ _ _ _ _ _ E).
    edestruct IH as (w' & E' & L'). exists w'. split; [exact E' |].
    rewrite L'. cbn [calls]. rewrite L, <- app_assoc. reflexivity.
Qed.

End BackoffLemmas.

(** ** Session normalisation *)

Section SessionProperties.

Context {P : Platform} {R : Type} {T : Transport R}.
Variable network : Network.

(** One fetch followed by the normalisation of what it returned. *)
Lemma fetch_then_ensure (c : Call) (f : R -> Res SessionState * R * N)
    (sid : string) (w : World R) (ex : SessionState) (r' : R) (d : N) :
  f (relay w) = (Ret ex, r', d) ->
  bind (transportCall c f)
    (fun session => lift (ensureSessionStateCorrect network sid session)) w
  = (match ensureSessionStateCorrect network sid ex with
     | Ret st => Returns st
     | Throw msg => Throws msg
     end,
     mkWorld r' (clock w + Z.of_N d) (calls w ++ [c])).
Proof.
  intros H. unfold bind, transportCall, lift. rewrite H.
  destruct (ensureSessionStateCorrect network sid ex); reflexivity.
Qed.

(** A record that normalises to [st] is what both session calls return
    when the relay answers with it. *)
Lemma normalized_is_returned (sid : string) (ex : SessionState)
    (st : TonhubSessionState) :
  ensureSessionStateCorrect network sid ex = Ret st ->
  (forall w r' d, call_session_get sid (relay w) = (Ret ex, r', d) ->
     getSessionState network sid w
     = (Returns st,
        mkWorld r' (clock w + Z.of_N d) (calls w ++ [session_get sid])))
  /\ (forall lastUpdated w r' d,
        call_session_wait sid lastUpdated (relay w) = (Ret ex, r', d) ->
        waitForSessionState network sid lastUpdated w
        = (Returns st,
           mkWorld r' (clock w + Z.of_N d)
             (calls w ++ [session_wait sid lastUpdated]))).
Proof.
  intros He. split; intros; apply backoff_Returns;
    erewrite fetch_then_ensure by eassumption; rewrite He; reflexivity.
Qed.

(** What a fetch followed by the normalisation returns is the normal form
    of the record the relay answered with. *)
Lemma fetch_then_ensure_inv (c : Call) (f : R -> Res SessionState * R * N)
    (sid : string) (w w' : World R) (st : TonhubSessionState) :
  bind (transportCall c f)
    (fun session => lift (ensureSessionStateCorrect network sid session)) w
  = (Returns st, w') ->
  exists ex r' d,
    f (relay w) = (Ret ex, r', d)
    /\ ensureSessionStateCorrect network sid ex = Ret st.
Proof.
  unfold bind, transportCall, lift.
  destruct (f (relay w)) as [[r r'] d].
  destruct r as [ex | msg]; [| discriminate].
  destruct (ensureSessionStateCorrect network sid ex) as [st' | msg] eqn:E;
    intros H; inversion H; subst. eauto.
Qed.

Lemma mismatch_or_revoked_ensure (sid : string) (ex : SessionState) :
  networkMismatch network ex \/ readyRevoked ex ->
  ensureSessionStateCorrect network sid ex = Ret State_revoked.
Proof.
  intros [(tn & Ht & Hne) | Hr].
  - destruct ex as [| name url t c u rv | name url wallet t c u rv];
      cbn in Ht; inversion Ht; subst; cbn.
    + destruct (Bool.eqb_spec tn (isTestnet network));
        [contradiction | reflexivity].
    + destruct rv; [reflexivity |].
      destruct (Bool.eqb_spec tn (isTestnet network));
        [contradiction | reflexivity].
  - destruct ex as [| name url t c u rv | name url wallet t c u rv];
      cbn in Hr; try contradiction. subst rv. reflexivity.
Qed.

Lemma unverified_ensure (sid : string) (ex : SessionState) :
  readyUnverified network sid ex ->
  ensureSessionStateCorrect network sid ex = Throw "Integrity check failed".
Proof.
  destruct ex as [| name url t c u rv | name url wallet t c u rv];
    cbn; try contradiction.
  intros (-> & -> & Hv). rewrite Bool.eqb_reflx, Hv. reflexivity.
Qed.

End SessionProperties.

(** C3.  A relay record, [initing] or [ready], whose testnet flag is not the
    one of the client's network, and a [ready] record flagged revoked, are
    normalised to [revoked]; that is what [getSessionState] and
    [waitForSessionState] return when the relay answers with such a
    record. *)
Theorem other_network_or_revoked_is_revoked
    {P : Platform} {R : Type} {T : Transport R} (network : Network)
    (sid : string) (ex : SessionState) :
  networkMismatch network ex \/ readyRevoked ex ->
  ensureSessionStateCorrect network sid ex = Ret State_revoked
  /\ (forall w r' d,
        call_session_get sid (relay w) = (Ret ex, r', d) ->
        fst (getSessionState network sid w) = Returns State_revoked)
  /\ (forall lastUpdated w r' d,
        call_session_wait sid lastUpdated (relay w) = (Ret ex, r', d) ->
        fst (waitForSessionState network sid lastUpdated w)
        = Returns State_revoked).
Proof.
  intros H. pose proof (mismatch_or_revoked_ensure network sid ex H) as He.
  destruct (normalized_is_returned network sid ex _ He) as [Hg Hw].
  split; [exact He |]. split.
  - intros w r' d Hc. rewrite (Hg _ _ _ Hc). reflexivity.
  - intros lastUpdated w r' d Hc. rewrite (Hw _ _ _ _ Hc). reflexivity.
Qed.

(** A mainnet client whose relay answers with a testnet [ready] record. *)
Lemma other_network_or_revoked_is_revoked_testnet_record :
  ensureSessionStateCorrect mainnet Samples.session Samples.rawReadyTestnet
  = Ret State_revoked
  /\ fst (getSessionState
            (T := Reference.scripted (Samples.relayAlways
                                        Samples.rawReadyTestnet))
            mainnet Samples.session Reference.start)
     = Returns State_revoked
  /\ fst (waitForSessionState
            (T := Reference.scripted (Samples.relayAlways
                                        Samples.rawReadyTestnet))
            mainnet Samples.session None Reference.start)
     = Returns State_revoked.
Proof.
  destruct (other_network_or_revoked_is_revoked
              (T := Reference.scripted (Samples.relayAlways
                                          Samples.rawReadyTestnet))
              mainnet Samples.session Samples.rawReadyTestnet)
    as (H1 & H2 & H3).
  - left. exists true. split; [reflexivity | discriminate].
  - split; [exact H1 |].
    split; [eapply H2 | eapply H3]; reflexivity.
Defined.

(** C10.  A relay record whose state is neither [initing] nor [ready] (the
    [not_found] record) is normalised to [revoked], and that is what
    [getSessionState] and [waitForSessionState] return for it. *)
Theorem unknown_state_is_revoked
    {P : Platform} {R : Type} {T : Transport R} (network : Network)
    (sid : string) (ex : SessionState) :
  rawState ex <> "initing" ->
  rawState ex <> "ready" ->
  ensureSessionStateCorrect network sid ex = Ret State_revoked
  /\ (forall w r' d,
        call_session_get sid (relay w) = (Ret ex, r', d) ->
        fst (getSessionState network sid w) = Returns State_revoked)
  /\ (forall lastUpdated w r' d,
        call_session_wait sid lastUpdated (relay w) = (Ret ex, r', d) ->
        fst (waitForSessionState network sid lastUpdated w)
        = Returns State_revoked).
Proof.
  intros Hi Hr.
  assert (He : ensureSessionStateCorrect network sid ex = Ret State_revoked).
  { destruct ex; cbn in *; [reflexivity | contradiction | contradiction]. }
  destruct (normalized_is_returned network sid ex _ He) as [Hg Hw].
  split; [exact He |]. split.
  - intros w r' d Hc. rewrite (Hg _ _ _ Hc). reflexivity.
  - intros lastUpdated w r' d Hc. rewrite (Hw _ _ _ _ Hc). reflexivity.
Qed.

(** A mainnet client whose relay answers [not_found]. *)
Lemma unknown_state_is_revoked_not_found :
  ensureSessionStateCorrect mainnet Samples.session Raw_not_found
  = Ret State_revoked
  /\ fst (getSessionState
            (T := Reference.scripted (Samples.relayAlways Raw_not_found))
            mainnet Samples.session Reference.start)
     = Returns State_revoked
  /\ fst (waitForSessionState
            (T := Reference.scripted (Samples.relayAlways Raw_not_found))
            mainnet Samples.session None Reference.start)
     = Returns State_revoked.
Proof.
  destruct (unknown_state_is_revoked
              (T := Reference.scripted (Samples.relayAlways Raw_not_found))
              mainnet Samples.session Raw_not_found)
    as (H1 & H2 & H3); try discriminate.
  split; [exact H1 |].
  split; [eapply H2 | eapply H3]; reflexivity.
Defined.

(** C2 (as amended).  For a [ready] record, not revoked and of the client's
    network, whose wallet config [verifyWalletConfig] answers false for,
    the normalisation throws the integrity error and returns no state: a
    state that [getSessionState] or [waitForSessionState] returns is the
    normal form of a relay answer that is not such a record.  Both run the
    fetch and the normalisation inside [backoff], which catches the error
    and fetches again: no error reaches their caller, and a relay that
    keeps answering with such records is asked again and again, the run
    being cut, whatever the bound on the retries, with one fetch more than
    the bound made and nothing returned. *)
Theorem integrity_error_is_caught_and_retried
    {P : Platform} {R : Type} {T : Transport R} (network : Network)
    (sid : string) :
  (forall ex, readyUnverified network sid ex ->
     ensureSessionStateCorrect network sid ex
     = Throw "Integrity check failed")
  /\ (forall w st w',
        getSessionState network sid w = (Returns st, w') ->
        exists w0 ex r' d,
          call_session_get sid (relay w0) = (Ret ex, r', d)
          /\ ensureSessionStateCorrect network sid ex = Ret st
          /\ ~ readyUnverified network sid ex)
  /\ (forall lastUpdated w st w',
        waitForSessionState network sid lastUpdated w = (Returns st, w') ->
        exists w0 ex r' d,
          call_session_wait sid lastUpdated (relay w0) = (Ret ex, r', d)
          /\ ensureSessionStateCorrect network sid ex = Ret st
          /\ ~ readyUnverified network sid ex)
  /\ (forall w msg w',
        getSessionState network sid w <> (Throws msg, w'))
  /\ (forall lastUpdated w msg w',
        waitForSessionState network sid lastUpdated w <> (Throws msg, w'))
  /\ ((forall r, exists ex r' d,
         call_session_get sid r = (Ret ex, r', d)
         /\ readyUnverified network sid ex) ->
      forall w, exists w',
        getSessionState network sid w = (OutOfFuel, w')
        /\ calls w' = calls w ++ repeat (session_get sid) (S retryFuel))
  /\ (forall lastUpdated,
        (forall r, exists ex r' d,
           call_session_wait sid lastUpdated r = (Ret ex, r', d)
           /\ readyUnverified network sid ex) ->
        forall w, exists w',
          waitForSessionState network sid lastUpdated w = (OutOfFuel, w')
          /\ calls w' = calls w
               ++ repeat (session_wait sid lastUpdated) (S retryFuel)).
Proof.
  split; [intros ex; apply unverified_ensure |].
  split; [| split; [| split; [| split; [| split]]]].
  - intros w st w' H. unfold getSessionState, backoff in H.
    apply backoffFrom_Returns_inv in H. destruct H as (w0 & H).
    apply fetch_then_ensure_inv in H. destruct H as (ex & r' & d & Hc & He).
    exists w0, ex, r', d. split; [exact Hc |]. split; [exact He |].
    intros Hu. rewrite (unverified_ensure network sid ex Hu) in He.
    discriminate.
  - intros lastUpdated w st w' H. unfold waitForSessionState, backoff in H.
    apply backoffFrom_Returns_inv in H. destruct H as (w0 & H).
    apply fetch_then_ensure_inv in H. destruct H as (ex & r' & d & Hc & He).
    exists w0, ex, r', d. split; [exact Hc |]. split; [exact He |].
    intros Hu. rewrite (unverified_ensure network sid ex Hu) in He.
    discriminate.
  - intros w msg w'. apply backoff_never_throws.
  - intros lastUpdated w msg w'. apply backoff_never_throws.
  - intros Hall w. unfold getSessionState, backoff.
    apply backoffFrom_always_fails. intros w0.
    destruct (Hall (relay w0)) as (ex & r' & d & Hc & Hu).
    do 2 eexists. erewrite fetch_then_ensure by exact Hc.
    rewrite (unverified_ensure network sid ex Hu). split; reflexivity.
  - intros lastUpdated Hall w. unfold waitForSessionState, backoff.
    apply backoffFrom_always_fails. intros w0.
    destruct (Hall (relay w0)) as (ex & r' & d & Hc & Hu).
    do 2 eexists. erewrite fetch_then_ensure by exact Hc.
    rewrite (unverified_ensure network sid ex Hu). split; reflexivity.
Qed.

Lemma sample_bad_signature_unverified :
  readyUnverified mainnet Samples.session Samples.rawReadyBadSig.
Proof.
  unfold readyUnverified, Samples.rawReadyBadSig.
  split; [reflexivity |]. split; [reflexivity |]. vm_compute. reflexivity.
Qed.

(** A relay that always answers with a [ready] record whose signature does
    not verify, in a run that follows five retries: six fetches, and the
    call is still fetching. *)
Lemma integrity_error_is_caught_and_retried_bad_signature :
  exists w',
    getSessionState
      (T := Reference.scripted (Samples.relayAlways Samples.rawReadyBadSig))
      mainnet Samples.session Reference.start
    = (OutOfFuel, w')
    /\ calls w' = repeat (session_get Samples.session) 6.
Proof.
  destruct (proj1 (proj2 (proj2 (proj2 (proj2
              (proj2 (integrity_error_is_caught_and_retried
                        (T := Reference.scripted
                                (Samples.relayAlways
                                   Samples.rawReadyBadSig))
                        mainnet Samples.session)))))))
    with (w := Reference.start) as (w' & E & L).
  - intros r. exists Samples.rawReadyBadSig, (S r), 5%N.
    split; [reflexivity | exact sample_bad_signature_unverified].
  - exists w'. split; [exact E | exact L].
Defined.

(** C2, counterexample.  The relay first answers with a [ready] record
    whose signature does not verify, then with an [initing] record:
    [getSessionState] and [waitForSessionState] ask again and return the
    state [initing]; no error reaches the caller. *)
Lemma unverified_ready_is_retried :
  readyUnverified mainnet Samples.session Samples.rawReadyBadSig
  /\ getSessionState (T := Reference.scripted Samples.relayBadSigOnce)
       mainnet Samples.session Reference.start
     = (Returns (State_initing "App" "https://app.example" 1000 2000),
        mkWorld 2%nat 260
          [session_get Samples.session; session_get Samples.session])
  /\ waitForSessionState (T := Reference.scripted Samples.relayBadSigOnce)
       mainnet Samples.session None Reference.start
     = (Returns (State_initing "App" "https://app.example" 1000 2000),
        mkWorld 2%nat 260
          [session_wait Samples.session None;
           session_wait Samples.session None]).
Proof.
  split; [exact sample_bad_signature_unverified |].
  split; vm_compute; reflexivity.
Qed.

(** ** Job normalisation *)

(** C4.  When the relay answers [command_get] with the record [res]:
    an [empty] record is reported as [expired], and a record whose job blob
    is not the submitted one is reported as [rejected], whatever state the
    relay gives it, [completed] with a result included. *)
Theorem foreign_job_is_rejected
    {P : Platform} {R : Type} {T : Transport R}
    (appKey boc : string) (w : World R) (res : JobState) (r' : R) (d : N) :
  call_command_get (toUrlSafe appKey) (relay w) = (Ret res, r', d) ->
  (forall now, res = Job_empty now ->
     fst (_getJobState appKey boc w) = Returns Result_expired)
  /\ (forall job, jobBlob res = Some job -> job <> boc ->
      fst (_getJobState appKey boc w) = Returns Result_rejected).
Proof.
  intros Hc. unfold _getJobState, bind, transportCall. rewrite Hc. split.
  - intros now ->. reflexivity.
  - intros job Hj Hne.
    destruct res as [state j c u n | j c u result n | n]; cbn in Hj;
      inversion Hj; subst j;
      (destruct (String.eqb_spec job boc); [contradiction | reflexivity]).
Qed.

(** A job reported [completed] with a result, under another blob. *)
Lemma foreign_job_is_rejected_completed :
  fst (_getJobState (T := Reference.scripted Samples.relayForeignJob)
         (appPublicKey Samples.wallet) "job-b" Reference.start)
  = Returns Result_rejected.
Proof.
  apply (proj2 (foreign_job_is_rejected
                  (T := Reference.scripted Samples.relayForeignJob)
                  (appPublicKey Samples.wallet) "job-b" Reference.start
                  (Job_completed "job-a" 1000 2000 "res" 3000) 1%nat 5%N
                  eq_refl) "job-a" eq_refl).
  discriminate.
Defined.

(** ** Requests *)

Section RequestProperties.

Context {P : Platform} {R : Type} {T : Transport R}.
Variable network : Network.

(** The session calls only ever log [session_get] and [session_wait]. *)
Lemma getSessionState_logs (sid : string) :
  logsOnly (fun c => isCommandNew c = false)
    (backoff (getSessionState network sid)).
Proof.
  apply logsOnly_backoff. unfold getSessionState. apply logsOnly_backoff.
  apply logsOnly_bind.
  - apply logsOnly_transportCall. reflexivity.
  - intros a. apply logsOnly_lift.
Qed.

(** A refused session ends [submitSign] with no job posted. *)
Lemma submitSign_refused (request : TonhubSignRequest.t) (w w1 : World R)
    (sid : string) (session : TonhubSessionState) :
  idFromSeed (TonhubSignRequest.seed request) = Ret sid ->
  backoff (getSessionState network sid) w = (Returns session, w1) ->
  refusedFor (TonhubSignRequest.appPublicKey request) session ->
  submitSign network request w = (Returns None, w1).
Proof.
  intros Hid Hs Hr. unfold submitSign. rewrite Hid.
  change (lift (Ret sid)) with (ret (R := R) sid).
  unfold bind at 1. cbn [ret]. rewrite (bind_Returns _ _ _ _ _ Hs).
  destruct session as [| | name url c u wallet]; try reflexivity.
  cbn in Hr.
  destruct (String.eqb_spec (appPublicKey wallet)
              (TonhubSignRequest.appPublicKey request));
    [contradiction | reflexivity].
Qed.

Lemma submitTransaction_refused (request : TonhubTransactionRequest.t)
    (w w1 : World R) (sid : string) (session : TonhubSessionState) :
  idFromSeed (TonhubTransactionRequest.seed request) = Ret sid ->
  backoff (getSessionState network sid) w = (Returns session, w1) ->
  refusedFor (TonhubTransactionRequest.appPublicKey request) session ->
  submitTransaction network request w = (Returns None, w1).
Proof.
  intros Hid Hs Hr. unfold submitTransaction. rewrite Hid.
  change (lift (Ret sid)) with (ret (R := R) sid).
  unfold bind at 1. cbn [ret]. rewrite (bind_Returns _ _ _ _ _ Hs).
  destruct session as [| | name url c u wallet]; try reflexivity.
  cbn in Hr.
  destruct (String.eqb_spec (appPublicKey wallet)
              (TonhubTransactionRequest.appPublicKey request));
    [contradiction | reflexivity].
Qed.

End RequestProperties.

(** C7.  When the session derived from the seed is not [ready], or is
    [ready] with a wallet bound to another app public key, [requestSign]
    and [requestTransaction] return [invalid_session] as a value, and the
    calls they made to the transport contain no [command_new]. *)
Theorem refused_session_posts_no_job
    {P : Platform} {R : Type} {T : Transport R} (network : Network)
    (fuel : nat) (sid : string) (session : TonhubSessionState)
    (w w1 : World R) :
  backoff (getSessionState network sid) w = (Returns session, w1) ->
  (forall request : TonhubSignRequest.t,
     idFromSeed (TonhubSignRequest.seed request) = Ret sid ->
     refusedFor (TonhubSignRequest.appPublicKey request) session ->
     requestSign network fuel request w = (Returns Sign_invalid_session, w1))
  /\ (forall request : TonhubTransactionRequest.t,
        idFromSeed (TonhubTransactionRequest.seed request) = Ret sid ->
        refusedFor (TonhubTransactionRequest.appPublicKey request) session ->
        requestTransaction network fuel request w
        = (Returns Tx_invalid_session, w1))
  /\ exists l, calls w1 = calls w ++ l
               /\ Forall (fun c => isCommandNew c = false) l.
Proof.
  intros Hs. split; [| split].
  - intros request Hid Hr. unfold requestSign.
    rewrite (bind_Returns _ _ _ _ _
               (submitSign_refused network request w w1 sid session Hid Hs Hr)).
    reflexivity.
  - intros request Hid Hr. unfold requestTransaction.
    rewrite (bind_Returns _ _ _ _ _
               (submitTransaction_refused network request w w1 sid session
                  Hid Hs Hr)).
    reflexivity.
  - eapply getSessionState_logs. exact Hs.
Qed.

(** The sample requests against a relay on which the session is still
    [initing]: both are refused after one [session_get]. *)
Lemma refused_session_posts_no_job_initing :
  requestSign (T := Reference.scripted (Samples.relayAlways Samples.rawIniting))
    mainnet 10 Samples.signRequest Reference.start
  = (Returns Sign_invalid_session,
     mkWorld 1%nat 5 [session_get Samples.session])
  /\ requestTransaction
       (T := Reference.scripted (Samples.relayAlways Samples.rawIniting))
       mainnet 10 Samples.transactionRequest Reference.start
     = (Returns Tx_invalid_session,
        mkWorld 1%nat 5 [session_get Samples.session]).
Proof.
  destruct (refused_session_posts_no_job
              (T := Reference.scripted (Samples.relayAlways Samples.rawIniting))
              mainnet 10 Samples.session
              (State_initing "App" "https://app.example" 1000 2000)
              Reference.start (mkWorld 1%nat 5 [session_get Samples.session]))
    as (Hs & Ht & _).
  - vm_compute. reflexivity.
  - split.
    + apply Hs; [vm_compute; reflexivity | exact I].
    + apply Ht; [vm_compute; reflexivity | exact I].
Defined.

Section SignProperties.

Context {P : Platform} {R : Type} {T : Transport R}.
Variable network : Network.



End SignProperties.



(** ** Waiting for a session *)

Section AwaitProperties.

Context {P : Platform} {R : Type} {T : Transport R}.
Variable network : Network.
Variable sid : string.
Variable lastUpdated : option Z.

(** A bound on the round trip of a poll, in ms. *)
Variable roundTrip : N.

(** Every poll is answered, within [roundTrip] ms, with an [initing] record
    of the client's network. *)
Hypothesis always_initing :
  forall r, exists name url created updated revoked r' d,
    call_session_wait sid lastUpdated r
    = (Ret (Raw_initing name url (isTestnet network) created updated revoked),
       r', d)
    /\ (d <= roundTrip)%N.

Lemma poll_initing (w : World R) :
  exists name url created updated w1,
    waitForSessionState network sid lastUpdated w
    = (Returns (State_initing name url created updated), w1)
    /\ clock w <= clock w1 <= clock w + Z.of_N roundTrip.
Proof.
  destruct (always_initing (relay w))
    as (name & url & c & u & rv & r' & d & Hc & Hd).
  exists name, url, c, u. eexists. split.
  - eapply (proj2 (normalized_is_returned network sid _ _ _)). exact Hc.
  - cbn [clock]. lia.
  Unshelve. cbn. rewrite Bool.eqb_reflx. reflexivity.
Qed.

Lemma awaitSessionLoop_unfold (fuel : nat) (expires : Z) (w : World R) :
  awaitSessionLoop network (S fuel) sid expires lastUpdated w =
  if clock w <? expires then
    bind (waitForSessionState network sid lastUpdated)
      (fun existing =>
         match existing with
         | State_ready name url created updated wallet =>
             ret (Awaited_ready name url created updated wallet)
         | State_revoked => ret Awaited_revoked
         | State_initing _ _ _ _ =>
             bind (delay 1000)
               (fun _ => awaitSessionLoop network fuel sid expires lastUpdated)
         end) w
  else (Returns Awaited_expired, w).
Proof.
  cbn [awaitSessionLoop]. unfold bind at 1. cbn [dateNow].
  destruct (clock w <? expires); reflexivity.
Qed.

(** With one unit of fuel per second left on the budget, the loop ends
    with [expired]: at once when the budget is spent, otherwise less than a
    round trip and a pause after the deadline. *)
Lemma awaitSessionLoop_expires (expires : Z) (fuel : nat) :
  forall w : World R,
    expires - clock w <= 1000 * Z.of_nat fuel ->
    exists w',
      awaitSessionLoop network (S fuel) sid expires lastUpdated w
      = (Returns Awaited_expired, w')
      /\ (clock w' = clock w
          \/ clock w' < expires + Z.of_N roundTrip + 1000).
Proof.
  induction fuel as [| fuel IH]; intros w Hb; rewrite awaitSessionLoop_unfold;
    destruct (Z.ltb_spec (clock w) expires) as [Hlt | Hge];
    try (exists w; split; [reflexivity | left; reflexivity]).
  - lia.
  - destruct (poll_initing w) as (name & url & c & u & w1 & Hp & Hc).
    rewrite (bind_Returns _ _ _ _ _ Hp). unfold bind at 1. cbn [delay].
    destruct (IH (mkWorld (relay w1) (clock w1 + 1000) (calls w1)))
      as (w' & E & Hw'); [cbn [clock]; lia |].
    exists w'. split; [exact E |]. right.
    cbn [clock] in Hw'. destruct Hw' as [-> | Hw']; lia.
Qed.

End AwaitProperties.

(** C9 (as amended).  If every poll of the session is answered with
    [initing] within [roundTrip] ms, then for every timeout,
    [awaitSessionReady] returns [expired] (given one unit of loop fuel per
    second of timeout, and two to spare), and it does so within the
    timeout plus one round trip plus the 1000 ms pause that follows a
    poll. *)
Theorem awaitSessionReady_expires
    {P : Platform} {R : Type} {T : Transport R} (network : Network)
    (sid : string) (lastUpdated : option Z) (roundTrip : N)
    (fuel : nat) (timeout : Z) (w : World R) :
  (forall r, exists name url created updated revoked r' d,
     call_session_wait sid lastUpdated r
     = (Ret (Raw_initing name url (isTestnet network) created updated revoked),
        r', d)
     /\ (d <= roundTrip)%N) ->
  Z.max 0 (timeout / 1000 + 1) < Z.of_nat fuel ->
  exists w',
    awaitSessionReady network fuel sid timeout lastUpdated w
    = (Returns Awaited_expired, w')
    /\ clock w' <= clock w + Z.max 0 (timeout + Z.of_N roundTrip + 1000).
Proof.
  intros Hall Hf. destruct fuel as [| fuel]; [lia |].
  unfold awaitSessionReady, bind. cbn [dateNow].
  destruct (awaitSessionLoop_expires network sid lastUpdated roundTrip Hall
              (clock w + timeout) fuel w) as (w' & E & Hw').
  - pose proof (Z.mul_div_le timeout 1000 ltac:(lia)).
    pose proof (Z.mod_pos_bound timeout 1000 ltac:(lia)).
    pose proof (Z.div_mod timeout 1000 ltac:(lia)). lia.
  - exists w'. split; [apply backoff_Returns; exact E |]. lia.
Qed.

(** A relay on which the session stays [initing], polled with a timeout of
    2.5 s. *)
Lemma awaitSessionReady_expires_in_time :
  exists w',
    awaitSessionReady (T := Reference.scripted Samples.relayAlwaysIniting)
      mainnet 5 Samples.session 2500 None Reference.start
    = (Returns Awaited_expired, w')
    /\ clock w' <= 3500.
Proof.
  apply (awaitSessionReady_expires
           (T := Reference.scripted Samples.relayAlwaysIniting)
           mainnet Samples.session None 0%N 5 2500 Reference.start).
  - intros r. exists "App", "https://app.example", 1000, 2000, false, (S r), 0%N.
    split; [reflexivity | reflexivity].
  - vm_compute. reflexivity.
Defined.

(** C9, counterexample.  With a timeout of 1 ms and polls answered at
    once, the call returns [expired] when the clock reads 1000: later than
    the timeout plus one round trip. *)
Lemma awaitSessionReady_overshoots_by_the_pause :
  awaitSessionReady (T := Reference.scripted Samples.relayAlwaysIniting)
    mainnet 5 Samples.session 1 None Reference.start
  = (Returns Awaited_expired,
     mkWorld 1%nat 1000 [session_wait Samples.session None])
  /\ Reference.rtt Samples.relayAlwaysIniting = 0%N
  /\ ~ (1000 <= clock Reference.start + 1
                + Z.of_N (Reference.rtt Samples.relayAlwaysIniting)).
Proof.
  split; [vm_compute; reflexivity |].
  split; [reflexivity |].
  vm_compute. intros H. apply H. reflexivity.
Qed.

(** ** Sample runs of the requests *)

(** With a result that carries the wallet's signature of the payload, the
    sample sign request succeeds, after one [session_get], one
    [command_new] and one [command_get]. *)
Example requestSign_signed_result_succeeds :
  exists sig w',
    requestSign (T := Reference.echoing Samples.rawReady Samples.signedResult)
      mainnet 5 Samples.signRequest Reference.idle
    = (Returns (Sign_success sig), w')
    /\ calls w'
       = [ session_get Samples.session;
           command_new Samples.postedBoc;
           command_get Samples.session ].
Proof.
  eexists. eexists. split; vm_compute; reflexivity.
Qed.

(** The sample transaction request is passed through without a check of
    its result. *)
Example requestTransaction_completed_succeeds :
  fst (requestTransaction
         (T := Reference.echoing Samples.rawReady Samples.unsignedResult)
         mainnet 5 Samples.transactionRequest Reference.idle)
  = Returns (Tx_success Samples.unsignedResult).
Proof. vm_compute. reflexivity. Qed.

(** * Further properties of the code *)

(** ** Sign responses *)

Lemma storeUint_Ret (v : Z) (w : nat) (b : Builder) :
  0 <= v < 2 ^ Z.of_nat w ->
  storeUint v w b = storeBits (uintBits v w) b.
Proof.
  intros H. unfold storeUint.
  destruct (Z.leb_spec 0 v); [| lia].
  destruct (Z.ltb_spec v (2 ^ Z.of_nat w)); [reflexivity | lia].
Qed.

Lemma storeUint_inv (v : Z) (w : nat) (b b' : Builder) :
  storeUint v w b = Ret b' ->
  0 <= v < 2 ^ Z.of_nat w /\ storeBits (uintBits v w) b = Ret b'.
Proof.
  unfold storeUint.
  destruct (Z.leb_spec 0 v) as [H0 | H0]; cbn [andb]; [| discriminate].
  destruct (Z.ltb_spec v (2 ^ Z.of_nat w)) as [H1 | H1]; [| discriminate].
  intros E. split; [lia | exact E].
Qed.

Lemma storeCoins_one (b : Builder) :
  storeCoins 1 b =
  let! b1 := storeBits (uintBits 1 4) b in storeBits (uintBits 1 8) b1.
Proof. reflexivity. Qed.

(** X1.  [verifySignatureResponse] answers true exactly when the address
    of the config parses, the wallet decoder yields a key and that same
    address, the comment and payload cells can be built, and the signature
    is valid under the decoded key over the cell that refers to the comment
    cell and then to the payload cell. *)
Theorem verifySignatureResponse_true_iff {P : Platform}
    (signature : string) (text payload : option string)
    (config : TonhubWalletConfig) :
  verifySignatureResponse signature text payload config = Ret true <->
  exists addr pk textCell payloadCell,
    parseFriendly (address config) = Ret addr
    /\ extractPublicKeyAndAddress (walletType config) (walletConfig config)
       = Ret (Some (pk, addr))
    /\ responseTextCell text = Ret textCell
    /\ responsePayloadCell payload = Ret payloadCell
    /\ safeSignVerify (mkCell [] [textCell; payloadCell])
         (fromBase64 signature) pk = Ret true.
Proof.
  unfold verifySignatureResponse. split.
  - intros H.
    apply rbind_Ret_inv in H. destruct H as (addr & Ha & H).
    apply rbind_Ret_inv in H. destruct H as (extracted & He & H).
    destruct extracted as [[pk ea] |]; [| discriminate].
    destruct (equals ea addr) eqn:Eq; cbn [negb] in H; [| discriminate].
    apply equals_eq in Eq. subst ea.
    apply rbind_Ret_inv in H. destruct H as (tc & Ht & H).
    apply rbind_Ret_inv in H. destruct H as (pc & Hp & H).
    cbn in H. exists addr, pk, tc, pc. auto.
  - intros (addr & pk & tc & pc & Ha & He & Ht & Hp & Hs).
    rewrite Ha. cbn [rbind]. rewrite He. cbn [rbind].
    assert (Eq : equals addr addr = true) by (now apply equals_eq).
    rewrite Eq. cbn [negb]. rewrite Ht, Hp. cbn. exact Hs.
Qed.

(** X2.  The sign job is laid out as: the bytes of the app public key, the
    expiry on 32 bits, one coin, and one child cell that refers to the
    comment cell and then to the payload cell.  Building it fails exactly
    when the expiry is not a 32-bit number or the key does not fit. *)
Theorem signJob_layout {P : Platform} (appKey : string) (expires : Z)
    (commentCell data job : Cell) :
  signJob appKey expires commentCell data = Ret job <->
  0 <= expires < 2 ^ 32
  /\ (length (bufferBits (fromBase64 appKey)) + 44 <= maxBits)%nat
  /\ job = mkCell
             (bufferBits (fromBase64 appKey) ++ uintBits expires 32
                ++ oneCoinBits)
             [mkCell [] [commentCell; data]].
Proof.
  unfold signJob, storeBuffer. split.
  - intros H.
    apply rbind_Ret_inv in H. destruct H as (b1 & H1 & H).
    apply storeBits_inv in H1. destruct H1 as [L1 ->].
    apply rbind_Ret_inv in H. destruct H as (b2 & H2 & H).
    apply storeUint_inv in H2. destruct H2 as [He H2].
    apply storeBits_inv in H2. destruct H2 as [L2 ->].
    apply rbind_Ret_inv in H. destruct H as (b3 & H3 & H).
    rewrite storeCoins_one in H3.
    apply rbind_Ret_inv in H3. destruct H3 as (b3' & H3' & H3).
    apply storeBits_inv in H3'. destruct H3' as [L3' ->].
    apply storeBits_inv in H3. destruct H3 as [L3 ->].
    cbn in H. inversion H; subst job; clear H.
    cbn [b_bits b_refs beginCell app] in *.
    repeat rewrite length_app in *. rewrite !uintBits_length in *.
    change (Z.of_nat 32) with 32 in He.
    split; [exact He |]. split; [lia |].
    unfold oneCoinBits. repeat rewrite <- app_assoc. reflexivity.
  - intros (He & L & ->).
    rewrite storeBits_Ret by (cbn [b_bits beginCell length]; lia). step.
    rewrite storeUint_Ret by exact He.
    rewrite storeBits_Ret
      by (cbn [b_bits]; rewrite uintBits_length; lia).
    step. rewrite storeCoins_one.
    rewrite storeBits_Ret
      by (cbn [b_bits]; rewrite length_app, !uintBits_length; lia).
    step.
    rewrite storeBits_Ret
      by (cbn [b_bits]; rewrite !length_app, !uintBits_length; lia).
    cbn. unfold oneCoinBits. repeat rewrite <- app_assoc. reflexivity.
Qed.

Lemma signJob_layout_sample :
  exists job,
    signJob (appPublicKey Samples.wallet) 300 EMPTY EMPTY = Ret job
    /\ cellRefs job = [mkCell [] [EMPTY; EMPTY]].
Proof.
  eexists. split.
  - apply (proj2 (signJob_layout (appPublicKey Samples.wallet) 300
                    EMPTY EMPTY _)).
    split; [lia |]. split; [vm_compute; lia | reflexivity].
  - reflexivity.
Defined.

(** X3.  For a non-empty text, a signature that [verifySignatureResponse]
    accepts for the text and payload of a sign request is a valid
    signature, under the key of the wallet, over the child cell of the job
    that [requestSign] builds from the same text and payload. *)
Theorem accepted_signature_signs_job_child {P : Platform}
    (t : string) (payload : option string) (appKey : string) (expires : Z)
    (commentCell data job : Cell) (signature : string)
    (config : TonhubWalletConfig) :
  t <> "" ->
  signCommentCell (Some t) = Ret commentCell ->
  signDataCell payload = Ret data ->
  signJob appKey expires commentCell data = Ret job ->
  verifySignatureResponse signature (Some t) payload config = Ret true ->
  exists child pk addr,
    cellRefs job = [child]
    /\ extractPublicKeyAndAddress (walletType config) (walletConfig config)
       = Ret (Some (pk, addr))
    /\ safeSignVerify child (fromBase64 signature) pk = Ret true.
Proof.
  intros Hne Hc Hd Hj Hv.
  apply signJob_layout in Hj. destruct Hj as (_ & _ & ->).
  apply verifySignatureResponse_true_iff in Hv.
  destruct Hv as (addr & pk & tc & pc & _ & He & Ht & Hp & Hs).
  unfold signCommentCell, commentMsgOf in Hc.
  unfold responseTextCell, truthy in Ht.
  destruct (String.eqb_spec t ""); [contradiction |]. cbn [negb] in Ht.
  rewrite Hc in Ht. inversion Ht; subst tc.
  change (responsePayloadCell payload) with (signDataCell payload) in Hp.
  rewrite Hd in Hp. inversion Hp; subst pc.
  exists (mkCell [] [commentCell; data]), pk, addr. auto.
Qed.

Lemma accepted_signature_signs_job_child_hello :
  exists child pk addr,
    cellRefs (mkCell
                (bufferBits (fromBase64 (appPublicKey Samples.wallet))
                   ++ uintBits 300 32 ++ oneCoinBits)
                [mkCell [] [Scenarios.helloCell; EMPTY]])
    = [child]
    /\ extractPublicKeyAndAddress (walletType Samples.wallet)
         (walletConfig Samples.wallet) = Ret (Some (pk, addr))
    /\ safeSignVerify child (fromBase64 Scenarios.helloSignature) pk
       = Ret true.
Proof.
  apply (accepted_signature_signs_job_child "hello" None
           (appPublicKey Samples.wallet) 300 Scenarios.helloCell EMPTY
           (mkCell
              (bufferBits (fromBase64 (appPublicKey Samples.wallet))
                 ++ uintBits 300 32 ++ oneCoinBits)
              [mkCell [] [Scenarios.helloCell; EMPTY]])
           Scenarios.helloSignature Samples.wallet).
  - discriminate.
  - vm_compute. reflexivity.
  - reflexivity.
  - vm_compute. reflexivity.
  - vm_compute. reflexivity.
Defined.

(** ** What the session calls return *)

Section SessionSoundness.

Context {P : Platform} {R : Type} {T : Transport R}.
Variable network : Network.

(** A [ready] state comes from a [ready] record of the client's network,
    not revoked, whose wallet was verified. *)
Lemma ensure_ready_inv (sid name url : string) (created updated : Z)
    (wallet : TonhubWalletConfig) (ex : SessionState) :
  ensureSessionStateCorrect network sid ex
  = Ret (State_ready name url created updated wallet) ->
  ex = Raw_ready name url wallet (isTestnet network) created updated false
  /\ verifyWalletConfig sid wallet = Ret true.
Proof.
  destruct ex as [| n u t c up rv | n u wal t c up rv]; cbn;
    try discriminate.
  - destruct (negb (Bool.eqb t (isTestnet network))); discriminate.
  - destruct rv; [discriminate |].
    destruct (Bool.eqb_spec t (isTestnet network)) as [-> | Hne];
      cbn [negb]; [| discriminate].
    intros H. apply rbind_Ret_inv in H. destruct H as (ok & Hv & H).
    destruct ok; cbn [negb] in H; [| discriminate].
    destruct wal. cbn in H. inversion H; subst. auto.
Qed.

Lemma getSessionState_ready_inv (sid name url : string)
    (created updated : Z) (wallet : TonhubWalletConfig) (w w' : World R) :
  getSessionState network sid w
  = (Returns (State_ready name url created updated wallet), w') ->
  verifyWalletConfig sid wallet = Ret true
  /\ exists w0 r' d,
       call_session_get sid (relay w0)
       = (Ret (Raw_ready name url wallet (isTestnet network) created updated
                 false), r', d).
Proof.
  unfold getSessionState, backoff. intros H.
  apply backoffFrom_Returns_inv in H. destruct H as (w0 & H).
  apply fetch_then_ensure_inv in H. destruct H as (ex & r' & d & Hc & He).
  apply ensure_ready_inv in He. destruct He as [-> Hv]. eauto.
Qed.

Lemma waitForSessionState_ready_inv (sid name url : string)
    (lastUpdated : option Z) (created updated : Z)
    (wallet : TonhubWalletConfig) (w w' : World R) :
  waitForSessionState network sid lastUpdated w
  = (Returns (State_ready name url created updated wallet), w') ->
  verifyWalletConfig sid wallet = Ret true
  /\ exists w0 r' d,
       call_session_wait sid lastUpdated (relay w0)
       = (Ret (Raw_ready name url wallet (isTestnet network) created updated
                 false), r', d).
Proof.
  unfold waitForSessionState, backoff. intros H.
  apply backoffFrom_Returns_inv in H. destruct H as (w0 & H).
  apply fetch_then_ensure_inv in H. destruct H as (ex & r' & d & Hc & He).
  apply ensure_ready_inv in He. destruct He as [-> Hv]. eauto.
Qed.

(** A [ready] answer of the waiting loop was returned by a poll. *)
Lemma awaitSessionLoop_ready_inv (sid : string) (expires : Z)
    (lastUpdated : option Z) (name url : string) (created updated : Z)
    (wallet : TonhubWalletConfig) (w' : World R) (fuel : nat) :
  forall w,
    awaitSessionLoop network fuel sid expires lastUpdated w
    = (Returns (Awaited_ready name url created updated wallet), w') ->
    exists w1,
      waitForSessionState network sid lastUpdated w1
      = (Returns (State_ready name url created updated wallet), w').
Proof.
  induction fuel as [| fuel IH]; intros w H; [discriminate |].
  cbn [awaitSessionLoop] in H. unfold bind at 1 in H. cbn [dateNow] in H.
  destruct (clock w <? expires); [| discriminate].
  apply bind_Returns_inv in H. destruct H as (st & w1 & Hp & H).
  destruct st as [n u c up | | n u c up wal].
  - apply bind_Returns_inv in H. destruct H as (x & w2 & _ & H).
    eapply IH. exact H.
  - discriminate.
  - inversion H; subst. eauto.
Qed.

End SessionSoundness.

(** X4.  Whatever the relay answers, a state [ready] that
    [getSessionState] or [waitForSessionState] returns carries a wallet
    config for which [verifyWalletConfig] answered true, taken from a
    [ready] record of the client's network that is not revoked. *)
Theorem ready_state_is_verified
    {P : Platform} {R : Type} {T : Transport R} (network : Network)
    (sid name url : string) (created updated : Z)
    (wallet : TonhubWalletConfig) (w w' : World R) :
  (getSessionState network sid w
   = (Returns (State_ready name url created updated wallet), w') ->
   verifyWalletConfig sid wallet = Ret true
   /\ exists w0 r' d,
        call_session_get sid (relay w0)
        = (Ret (Raw_ready name url wallet (isTestnet network) created
                  updated false), r', d))
  /\ (forall lastUpdated,
        waitForSessionState network sid lastUpdated w
        = (Returns (State_ready name url created updated wallet), w') ->
        verifyWalletConfig sid wallet = Ret true
        /\ exists w0 r' d,
             call_session_wait sid lastUpdated (relay w0)
             = (Ret (Raw_ready name url wallet (isTestnet network) created
                       updated false), r', d)).
Proof.
  split.
  - apply getSessionState_ready_inv.
  - intros lastUpdated. apply waitForSessionState_ready_inv.
Qed.

(** X5.  The normalisation reports [revoked] exactly for the [not_found]
    record, a record of another network and a [ready] record flagged
    revoked; it reports [initing] exactly for an [initing] record of the
    client's network, whose own revoked flag is not looked at. *)
Theorem normalisation_revoked_and_initing
    {P : Platform} (network : Network) (sid : string) (ex : SessionState) :
  (ensureSessionStateCorrect network sid ex = Ret State_revoked <->
   ex = Raw_not_found \/ networkMismatch network ex \/ readyRevoked ex)
  /\ (forall name url created updated,
        ensureSessionStateCorrect network sid ex
        = Ret (State_initing name url created updated) <->
        exists revoked,
          ex = Raw_initing name url (isTestnet network) created updated
                 revoked).
Proof.
  split.
  - split.
    + destruct ex as [| n u t c up rv | n u wal t c up rv]; cbn;
        [auto | |].
      * destruct (Bool.eqb_spec t (isTestnet network)); cbn [negb];
          [discriminate |].
        intros _. right. left. exists t. auto.
      * destruct rv; [intros _; right; right; reflexivity |].
        destruct (Bool.eqb_spec t (isTestnet network)); cbn [negb].
        -- intros H. apply rbind_Ret_inv in H. destruct H as (ok & _ & H).
           destruct ok; discriminate.
        -- intros _. right. left. exists t. auto.
    + intros [-> | H]; [reflexivity |].
      apply mismatch_or_revoked_ensure. exact H.
  - intros name url created updated. split.
    + destruct ex as [| n u t c up rv | n u wal t c up rv]; cbn;
        [discriminate | |].
      * destruct (Bool.eqb_spec t (isTestnet network)); cbn [negb];
          [| discriminate].
        intros H. inversion H; subst. eauto.
      * destruct rv; [discriminate |].
        destruct (negb (Bool.eqb t (isTestnet network))); [discriminate |].
        intros H. apply rbind_Ret_inv in H. destruct H as (ok & _ & H).
        destruct ok; discriminate.
    + intros [rv ->]. cbn. rewrite Bool.eqb_reflx. reflexivity.
Qed.

(** X6.  With a timeout that is zero or negative, [awaitSessionReady]
    returns [expired] at once: the relay is not asked and no time
    passes. *)
Theorem awaitSessionReady_no_budget
    {P : Platform} {R : Type} {T : Transport R} (network : Network)
    (fuel : nat) (sid : string) (timeout : Z) (lastUpdated : option Z)
    (w : World R) :
  timeout <= 0 ->
  awaitSessionReady network (S fuel) sid timeout lastUpdated w
  = (Returns Awaited_expired, w).
Proof.
  intros Ht. unfold awaitSessionReady, bind. cbn [dateNow].
  apply backoff_Returns. cbn [awaitSessionLoop]. unfold bind.
  cbn [dateNow]. destruct (Z.ltb_spec (clock w) (clock w + timeout));
    [lia | reflexivity].
Qed.

Lemma awaitSessionReady_no_budget_zero :
  awaitSessionReady (T := Reference.scripted (Samples.relayAlways
                                                Samples.rawReady))
    mainnet 1 Samples.session 0 None Reference.start
  = (Returns Awaited_expired, Reference.start).
Proof.
  apply (awaitSessionReady_no_budget
           (T := Reference.scripted (Samples.relayAlways Samples.rawReady))
           mainnet 0 Samples.session 0 None Reference.start).
  lia.
Defined.

(** X7.  A [ready] answer of [awaitSessionReady] carries a wallet config
    for which [verifyWalletConfig] answered true for the session id. *)
Theorem awaited_ready_is_verified
    {P : Platform} {R : Type} {T : Transport R} (network : Network)
    (fuel : nat) (sid : string) (timeout : Z) (lastUpdated : option Z)
    (name url : string) (created updated : Z) (wallet : TonhubWalletConfig)
    (w w' : World R) :
  awaitSessionReady network fuel sid timeout lastUpdated w
  = (Returns (Awaited_ready name url created updated wallet), w') ->
  verifyWalletConfig sid wallet = Ret true.
Proof.
  unfold awaitSessionReady, bind. cbn [dateNow]. unfold backoff. intros H.
  apply backoffFrom_Returns_inv in H. destruct H as (w0 & H).
  apply awaitSessionLoop_ready_inv in H. destruct H as (w1 & H).
  apply waitForSessionState_ready_inv in H. apply H.
Qed.

Lemma awaited_ready_is_verified_sample :
  verifyWalletConfig Samples.session Samples.wallet = Ret true.
Proof.
  apply (awaited_ready_is_verified
           (T := Reference.scripted (Samples.relayAlways Samples.rawReady))
           mainnet 5 Samples.session 1000 None "App" "https://app.example"
           1000 2000 Samples.wallet Reference.start
           (mkWorld 1%nat 5 [session_wait Samples.session None])).
  vm_compute. reflexivity.
Defined.

(** ** Polling a job *)

Section JobPolling.

Context {P : Platform} {R : Type} {T : Transport R}.

(** One poll, when the relay answers with [res]. *)
Lemma _getJobState_answer (appKey boc : string) (w : World R)
    (res : JobState) (r' : R) (d : N) :
  call_command_get (toUrlSafe appKey) (relay w) = (Ret res, r', d) ->
  _getJobState appKey boc w
  = (Returns
       (match res with
        | Job_empty _ => Result_expired
        | Job_pending state job _ _ _ =>
            if negb (String.eqb job boc) then Result_rejected
            else match state with
                 | expired => Result_expired
                 | submitted => Result_submitted
                 | rejected => Result_rejected
                 end
        | Job_completed job _ _ result _ =>
            if negb (String.eqb job boc) then Result_rejected
            else Result_completed result
        end),
     mkWorld r' (clock w + Z.of_N d)
       (calls w ++ [command_get (toUrlSafe appKey)])).
Proof.
  intros Hc. unfold _getJobState, bind, transportCall. rewrite Hc.
  destruct res as [state job c u n | job c u result n | n]; cbn;
    try reflexivity.
  - destruct (negb (job =? boc)%string); [reflexivity |].
    destruct state; reflexivity.
  - destruct (negb (job =? boc)%string); reflexivity.
Qed.

(** A poll reports [completed] only for a [completed] record of the
    submitted blob. *)
Lemma _getJobState_completed_inv (appKey boc result : string)
    (w w' : World R) :
  _getJobState appKey boc w = (Returns (Result_completed result), w') ->
  exists r' d created updated now,
    call_command_get (toUrlSafe appKey) (relay w)
    = (Ret (Job_completed boc created updated result now), r', d).
Proof.
  unfold _getJobState, bind, transportCall.
  destruct (call_command_get (toUrlSafe appKey) (relay w))
    as [[res r'] d] eqn:E.
  destruct res as [res | msg]; [| discriminate].
  destruct res as [state job c u n | job c u res n | n]; cbn.
  - destruct (negb (job =? boc)%string); [discriminate |].
    destruct state; discriminate.
  - destruct (String.eqb_spec job boc) as [-> | Hne]; cbn [negb];
      [| discriminate].
    intros H. inversion H; subst. eauto 10.
  - discriminate.
Qed.

Lemma awaitJobLoop_done_inv (appKey boc result : string) (w' : World R)
    (fuel : nat) :
  forall w,
    awaitJobLoop fuel appKey boc w = (Returns (Job_done result), w') ->
    exists w0 r' d created updated now,
      call_command_get (toUrlSafe appKey) (relay w0)
      = (Ret (Job_completed boc created updated result now), r', d).
Proof.
  induction fuel as [| fuel IH]; intros w H; [discriminate |].
  cbn [awaitJobLoop] in H.
  apply bind_Returns_inv in H. destruct H as (st & w1 & Hp & H).
  destruct st as [| | | res].
  - discriminate.
  - discriminate.
  - apply bind_Returns_inv in H. destruct H as (x & w2 & _ & H).
    eapply IH. exact H.
  - inversion H; subst. apply _getJobState_completed_inv in Hp.
    destruct Hp as (r' & d & c & u & n & Hc). eauto 10.
Qed.

Lemma _awaitJobState_done_inv (fuel : nat) (appKey boc result : string)
    (w w' : World R) :
  _awaitJobState fuel appKey boc w = (Returns (Job_done result), w') ->
  exists w0 r' d created updated now,
    call_command_get (toUrlSafe appKey) (relay w0)
    = (Ret (Job_completed boc created updated result now), r', d).
Proof.
  unfold _awaitJobState, backoff. intros H.
  apply backoffFrom_Returns_inv in H. destruct H as (w0 & H).
  eapply awaitJobLoop_done_inv. exact H.
Qed.



End JobPolling.

(** X8.  When the relay answers a poll with the record [res], the poll
    reports [completed] with a result exactly when [res] is a [completed]
    record whose job blob is the submitted one and which carries that
    result. *)
Theorem poll_completed_iff
    {P : Platform} {R : Type} {T : Transport R}
    (appKey boc result : string) (w : World R) (res : JobState) (r' : R)
    (d : N) :
  call_command_get (toUrlSafe appKey) (relay w) = (Ret res, r', d) ->
  (fst (_getJobState appKey boc w) = Returns (Result_completed result) <->
   exists created updated now,
     res = Job_completed boc created updated result now).
Proof.
  intros Hc. split.
  - intros H. destruct (_getJobState appKey boc w) as [o w'] eqn:E.
    cbn in H. subst o. apply _getJobState_completed_inv in E.
    destruct E as (r1 & d1 & c & u & n & E). rewrite Hc in E.
    inversion E; subst. eauto.
  - intros (c & u & n & ->).
    rewrite (_getJobState_answer appKey boc w _ r' d Hc). cbn.
    rewrite String.eqb_refl. reflexivity.
Qed.

Lemma poll_completed_iff_echo :
  fst (_getJobState
         (T := Reference.echoing Samples.rawReady Samples.unsignedResult)
         (appPublicKey Samples.wallet) Samples.postedBoc Samples.postedWorld)
  = Returns (Result_completed Samples.unsignedResult).
Proof.
  apply (proj2 (poll_completed_iff
                  (T := Reference.echoing Samples.rawReady
                          Samples.unsignedResult)
                  (appPublicKey Samples.wallet) Samples.postedBoc
                  Samples.unsignedResult Samples.postedWorld
                  (Job_completed Samples.postedBoc 1000 2000
                     Samples.unsignedResult 3000)
                  (Some Samples.postedBoc) 5%N eq_refl)).
  exists 1000, 2000, 3000. reflexivity.
Defined.

(** X9.  A result that [_awaitJobState] hands back as [completed] was
    reported by the relay in a [completed] record whose job blob is,
    byte for byte, the blob that was submitted. *)
Theorem awaited_result_is_for_submitted_blob
    {P : Platform} {R : Type} {T : Transport R}
    (fuel : nat) (appKey boc result : string) (w w' : World R) :
  _awaitJobState fuel appKey boc w = (Returns (Job_done result), w') ->
  exists w0 r' d created updated now,
    call_command_get (toUrlSafe appKey) (relay w0)
    = (Ret (Job_completed boc created updated result now), r', d).
Proof. apply _awaitJobState_done_inv. Qed.

Lemma awaited_result_is_for_submitted_blob_echo :
  exists w0 r' d created updated now,
    call_command_get
      (Transport := Reference.echoing Samples.rawReady Samples.unsignedResult)
      (toUrlSafe (appPublicKey Samples.wallet)) (relay w0)
    = (Ret (Job_completed Samples.postedBoc created updated
              Samples.unsignedResult now), r', d).
Proof.
  apply (awaited_result_is_for_submitted_blob
           (T := Reference.echoing Samples.rawReady Samples.unsignedResult)
           5 (appPublicKey Samples.wallet) Samples.postedBoc
           Samples.unsignedResult Samples.postedWorld Samples.polledWorld).
  vm_compute. reflexivity.
Defined.

(** X10.  If the relay answers [submitted] for the submitted blob to the
    first polls and then something else, and the loop has fuel for one
    poll more than that, [_awaitJobState] returns after exactly that many
    polls plus one, and at least a second has passed per [submitted]
    answer. *)
Theorem polling_ends_with_first_terminal_answer
    {P : Platform} {R : Type} {T : Transport R}
    (appKey boc : string) (pending : list JobState) (final : JobState)
    (fuel : nat) (w : World R) :
  Forall (stillSubmitted boc) pending ->
  ~ stillSubmitted boc final ->
  jobAnswers (toUrlSafe appKey) (relay w) (pending ++ [final]) ->
  (length pending < fuel)%nat ->
  exists a w',
    _awaitJobState fuel appKey boc w = (Returns a, w')
    /\ calls w'
       = calls w ++ repeat (command_get (toUrlSafe appKey))
                      (S (length pending))
    /\ clock w + 1000 * Z.of_nat (length pending) <= clock w'.
Proof.
  intros Hp Hf Ha Hfuel.
  enough (exists a w',
            awaitJobLoop fuel appKey boc w = (Returns a, w')
            /\ calls w'
               = calls w ++ repeat (command_get (toUrlSafe appKey))
                              (S (length pending))
            /\ clock w + 1000 * Z.of_nat (length pending) <= clock w')
    as (a & w' & E & Hcalls & Hclock).
  { exists a, w'. split; [apply backoff_Returns; exact E | auto]. }
  revert fuel w Ha Hfuel.
  induction Hp as [| p pending Hsub Hrest IH]; intros fuel w Ha Hfuel.
  - destruct fuel as [| fuel]; [cbn in Hfuel; lia |].
    cbn in Ha. destruct Ha as (r' & d & Hc & _).
    cbn [awaitJobLoop].
    rewrite (bind_Returns _ _ _ _ _
               (_getJobState_answer appKey boc w final r' d Hc)).
    assert (Hterm :
      exists a,
        (match
           match final with
           | Job_empty _ => Result_expired
           | Job_pending state job _ _ _ =>
               if negb (job =? boc)%string then Result_rejected
               else match state with
                    | expired => Result_expired
                    | submitted => Result_submitted
                    | rejected => Result_rejected
                    end
           | Job_completed job _ _ result _ =>
               if negb (job =? boc)%string then Result_rejected
               else Result_completed result
           end
         with
         | Result_expired => ret Job_expired
         | Result_completed result => ret (Job_done result)
         | Result_rejected => ret Job_rejected
         | Result_submitted =>
             bind (delay 1000) (fun _ => awaitJobLoop fuel appKey boc)
         end) = ret (R := R) a).
    { destruct final as [state job c u n | job c u result n | n].
      - destruct (String.eqb_spec job boc) as [-> | Hne]; cbn [negb];
          [| eauto].
        destruct state; eauto.
        exfalso. apply Hf. exists c, u, n. reflexivity.
      - destruct (negb (job =? boc)%string); eauto.
      - eauto. }
    destruct Hterm as (a & ->). exists a. eexists. split; [reflexivity |].
    cbn [calls clock length repeat]. split; [reflexivity | lia].
  - destruct fuel as [| fuel]; [cbn in Hfuel; lia |].
    cbn in Ha. destruct Ha as (r' & d & Hc & Ha).
    destruct Hsub as (c & u & n & ->).
    cbn [awaitJobLoop].
    rewrite (bind_Returns _ _ _ _ _
               (_getJobState_answer appKey boc w _ r' d Hc)).
    cbn. rewrite String.eqb_refl. cbn [negb]. unfold bind at 1.
    cbn [delay relay clock calls].
    destruct (IH fuel
                (mkWorld r' (clock w + Z.of_N d + 1000)
                   (calls w ++ [command_get (toUrlSafe appKey)])))
      as (a & w' & E & Hcalls & Hclock).
    + exact Ha.
    + cbn in Hfuel. lia.
    + exists a, w'. split; [exact E |]. cbn [calls clock] in *.
      split.
      * rewrite Hcalls, <- app_assoc. reflexivity.
      * cbn [length]. lia.
Qed.

Lemma polling_ends_with_first_terminal_answer_slow_job :
  exists a w',
    _awaitJobState (T := Reference.scripted Scenarios.relaySlowJob)
      5 "key" "job-a" Reference.start = (Returns a, w')
    /\ calls w' = repeat (command_get (toUrlSafe "key")) 3
    /\ 2000 <= clock w'.
Proof.
  apply (polling_ends_with_first_terminal_answer
           (T := Reference.scripted Scenarios.relaySlowJob)
           "key" "job-a"
           [Job_pending submitted "job-a" 1000 2000 3000;
            Job_pending submitted "job-a" 1000 2000 3000]
           (Job_completed "job-a" 1000 2000 "res" 3000) 5 Reference.start).
  - repeat constructor; exists 1000, 2000, 3000; reflexivity.
  - intros (c & u & n & H). discriminate.
  - cbn. exists 1%nat, 5%N. split; [reflexivity |].
    exists 2%nat, 5%N. split; [reflexivity |].
    exists 3%nat, 5%N. split; [reflexivity | exact I].
  - cbn. lia.
Defined.

(** X11.  While the relay keeps answering [submitted] for the submitted
    blob, [_awaitJobState] does not return: whatever bound is put on the
    iterations of its loop, the loop is cut by the bound. *)
Theorem polling_never_gives_up
    {P : Platform} {R : Type} {T : Transport R} (appKey boc : string) :
  (forall r, exists a r' d,
     call_command_get (toUrlSafe appKey) r = (Ret a, r', d)
     /\ stillSubmitted boc a) ->
  forall fuel w, fst (_awaitJobState fuel appKey boc w) = OutOfFuel.
Proof.
  intros Hall fuel w.
  assert (Hloop : forall fuel w,
            exists w', awaitJobLoop fuel appKey boc w = (OutOfFuel, w')).
  { clear fuel w. induction fuel as [| fuel IH]; intros w.
    - exists w. reflexivity.
    - destruct (Hall (relay w)) as (a & r' & d & Hc & (c & u & n & ->)).
      cbn [awaitJobLoop].
      rewrite (bind_Returns _ _ _ _ _
                 (_getJobState_answer appKey boc w _ r' d Hc)).
      cbn. rewrite String.eqb_refl. cbn [negb]. unfold bind at 1.
      cbn [delay]. apply IH. }
  destruct (Hloop fuel w) as (w' & E).
  unfold _awaitJobState, backoff.
  destruct retryFuel; cbn; rewrite E; reflexivity.
Qed.

Lemma polling_never_gives_up_stuck_job :
  fst (_awaitJobState (T := Reference.scripted Scenarios.relayStuckJob)
         1000 "key" "job-a" Reference.start) = OutOfFuel.
Proof.
  apply (polling_never_gives_up
           (T := Reference.scripted Scenarios.relayStuckJob) "key" "job-a").
  intros r. exists (Job_pending submitted "job-a" 1000 2000 3000), (S r), 5%N.
  split; [reflexivity |]. exists 1000, 2000, 3000. reflexivity.
Defined.

(** ** Answers to a transaction request *)

Section TransactionAnswers.

Context {P : Platform} {R : Type} {T : Transport R}.
Variable network : Network.



End TransactionAnswers.



(** ** The signed envelope of a job *)

Lemma byteOfBits_byteBits (x : byte) : byteOfBits (byteBits x) = x.
Proof. destruct x; vm_compute; reflexivity. Qed.

Lemma firstn_exact {A : Type} (l l' : list A) :
  firstn (length l) (l ++ l') = l.
Proof. induction l as [| a l IH]; cbn; [destruct l' | rewrite IH]; reflexivity. Qed.

Lemma skipn_exact {A : Type} (l l' : list A) :
  skipn (length l) (l ++ l') = l'.
Proof. induction l as [| a l IH]; cbn; [reflexivity | exact IH]. Qed.

(** Reading back the bytes that were written gives the same bytes. *)
Lemma bytesOfBits_bufferBits (buf : Buffer) (rest : list bool) :
  bytesOfBits (length buf) (bufferBits buf ++ rest) = buf.
Proof.
  induction buf as [| x buf IH]; [reflexivity |].
  unfold bufferBits in *. cbn [flat_map length bytesOfBits].
  rewrite <- app_assoc.
  assert (L : length (byteBits x) = 8%nat)
    by (unfold byteBits; apply uintBits_length).
  rewrite <- L at 1 2. rewrite firstn_exact, skipn_exact.
  rewrite byteOfBits_byteBits, IH. reflexivity.
Qed.

(** X13.  When the key pair and the signature are available and fit, the
    blob that is posted encodes an envelope cell made of the signature
    bytes, then the public key bytes, with the job as its only reference;
    reading the envelope back gives the same signature and public key. *)
Theorem packageJob_envelope {P : Platform} (seed : string) (job : Cell)
    (keypair : KeyPair) (signature : Buffer) :
  keyPairFromSeed (fromBase64 seed) = Ret keypair ->
  safeSign job (secretKey keypair) = Ret signature ->
  (length signature + length (publicKey keypair) <= 127)%nat ->
  exists envelope,
    packageJob seed job = Ret (toBase64 (toBoc envelope))
    /\ cellRefs envelope = [job]
    /\ loadBuffer (length signature) envelope = Ret signature
    /\ bytesOfBits (length (publicKey keypair))
         (skipn (8 * length signature) (cellBits envelope))
       = publicKey keypair.
Proof.
  intros Hk Hs Hl.
  exists (mkCell (bufferBits signature ++ bufferBits (publicKey keypair))
            [job]).
  unfold packageJob, storeBuffer. rewrite Hk. cbn [rbind]. rewrite Hs.
  cbn [rbind].
  rewrite storeBits_Ret
    by (cbn [b_bits beginCell length]; rewrite bufferBits_length;
        unfold maxBits; lia).
  step.
  rewrite storeBits_Ret
    by (cbn [b_bits]; rewrite !bufferBits_length; unfold maxBits; lia).
  step. split; [reflexivity |]. split; [reflexivity |]. split.
  - unfold loadBuffer. cbn [cellBits].
    rewrite length_app, !bufferBits_length.
    destruct (Nat.leb_spec (8 * length signature)
                (8 * length signature + 8 * length (publicKey keypair)));
      [| lia].
    rewrite bytesOfBits_bufferBits. reflexivity.
  - cbn [cellBits]. rewrite <- (bufferBits_length signature).
    rewrite skipn_exact.
    rewrite <- (app_nil_r (bufferBits (publicKey keypair))).
    apply bytesOfBits_bufferBits.
Qed.

Lemma packageJob_envelope_sample :
  exists envelope,
    packageJob (TonhubSignRequest.seed Samples.signRequest) EMPTY
    = Ret (toBase64 (toBoc envelope))
    /\ cellRefs envelope = [EMPTY]
    /\ loadBuffer 64 envelope
       = Ret (Reference.digest EMPTY ++ repeat x01 32)
    /\ bytesOfBits 32 (skipn 512 (cellBits envelope)) = repeat x01 32.
Proof.
  apply (packageJob_envelope
           (TonhubSignRequest.seed Samples.signRequest) EMPTY
           (mkKeyPair (repeat x01 32) (repeat x01 64))
           (Reference.digest EMPTY ++ repeat x01 32)).
  - vm_compute. reflexivity.
  - vm_compute. reflexivity.
  - vm_compute. lia.
Defined.

(** ** Creating a session *)

Section CreateSessionProperties.

Context {P : Platform} {R : Type} {G : Registrar R}.
Variable network : Network.

(** The registration callback returns only on an [ok] answer. *)
Lemma requestNewSession_Returns_inv (sid name url : string)
    (w w' : World R) (x : unit) :
  requestNewSession network sid name url w = (Returns x, w') ->
  exists r' d,
    call_session_new sid (isTestnet network) name url (relay w)
    = (Ret true, r', d).
Proof.
  unfold requestNewSession, bind, registrarCall.
  destruct (call_session_new sid (isTestnet network) name url (relay w))
    as [[r r'] d].
  destruct r as [ok | msg]; [| discriminate].
  destruct ok; cbn; [eauto | discriminate].
Qed.

End CreateSessionProperties.

(** X14.  A session that [createNewSession] returns has as id the url-safe
    base64 of the public key of the seed, as seed the base64 of the seed,
    and as link the scheme of the network, the id and the fixed endpoint;
    the relay accepted the registration of that id; and, where base64
    decoding undoes the encoding of the seed, [idFromSeed] of the returned
    seed is the returned id. *)
Theorem created_session_is_registered
    {P : Platform} {R : Type} {G : Registrar R}
    (network : Network) (seed : Buffer) (name url : string)
    (s : TonhubCreatedSession.t) (w w' : World R) :
  createNewSession network seed name url w = (Returns s, w') ->
  (exists keyPair,
     keyPairFromSeed seed = Ret keyPair
     /\ TonhubCreatedSession.id s
        = toUrlSafe (toBase64 (publicKey keyPair)))
  /\ TonhubCreatedSession.seed s = toBase64 seed
  /\ TonhubCreatedSession.link s
     = ((if isTestnet network then "ton-test://connect/"
         else "ton://connect/")
        ++ TonhubCreatedSession.id s ++ "?endpoint=connect.tonhubapi.com")%string
  /\ (exists r0 r' d,
        call_session_new (TonhubCreatedSession.id s) (isTestnet network)
          name url r0 = (Ret true, r', d))
  /\ (fromBase64 (toBase64 seed) = seed ->
      idFromSeed (TonhubCreatedSession.seed s)
      = Ret (TonhubCreatedSession.id s)).
Proof.
  unfold createNewSession. intros H.
  apply bind_Returns_inv in H. destruct H as (kp & wa & Hk & H).
  apply lift_Returns_inv in Hk. destruct Hk as [Hk ->].
  apply bind_Returns_inv in H. destruct H as (x & w1 & Hb & H).
  inversion H; subst. clear H. cbn.
  unfold backoff in Hb. apply backoffFrom_Returns_inv in Hb.
  destruct Hb as (w0 & Hb).
  apply requestNewSession_Returns_inv in Hb. destruct Hb as (r' & d & Hc).
  split; [eauto |]. split; [reflexivity |]. split; [reflexivity |].
  split; [eauto |].
  intros Hrt. unfold idFromSeed. rewrite Hrt, Hk. reflexivity.
Qed.

(** X15.  When the key pair of the seed is available, no error leaves
    [createNewSession]: the refusal of a registration, thrown inside
    [backoff], is caught there and the registration is made again.  If the
    relay refuses every registration, the call returns no session: whatever
    the bound on the retries, the run is cut with one registration more
    than the bound made. *)
Theorem refused_registration_is_retried
    {P : Platform} {R : Type} {G : Registrar R}
    (network : Network) (seed : Buffer) (name url : string)
    (keyPair : KeyPair) :
  keyPairFromSeed seed = Ret keyPair ->
  (forall w msg w',
     createNewSession network seed name url w <> (Throws msg, w'))
  /\ ((forall r, exists r' d,
         call_session_new (toUrlSafe (toBase64 (publicKey keyPair)))
           (isTestnet network) name url r = (Ret false, r', d)) ->
      forall w, exists w',
        createNewSession network seed name url w = (OutOfFuel, w')
        /\ relay w'
           = Nat.iter (S retryFuel)
               (fun r =>
                  snd (fst (call_session_new
                              (toUrlSafe (toBase64 (publicKey keyPair)))
                              (isTestnet network) name url r)))
               (relay w)).
Proof.
  intros Hk. unfold createNewSession. rewrite Hk.
  change (lift (Ret keyPair)) with (ret (R := R) keyPair).
  set (sid := toUrlSafe (toBase64 (publicKey keyPair))) in *.
  split.
  - intros w msg w' H. unfold bind at 1 in H. cbn [ret] in H.
    unfold bind in H. fold sid in H.
    destruct (backoff (requestNewSession network sid name url) w)
      as [[x | msg0 |] w1] eqn:E; try discriminate.
    exact (backoff_never_throws _ _ _ _ E).
  - intros Hall w. unfold bind at 1. cbn [ret].
    set (next := fun r =>
                   snd (fst (call_session_new sid (isTestnet network)
                               name url r))).
    assert (Hcut : forall fuel failures w0,
              exists w1,
                backoffFrom fuel failures
                  (requestNewSession network sid name url) w0
                = (OutOfFuel, w1)
                /\ relay w1 = Nat.iter (S fuel) next (relay w0)).
    { induction fuel as [| fuel IH]; intros failures w0;
        destruct (Hall (relay w0)) as (r' & d & Hc);
        assert (E : requestNewSession network sid name url w0
                    = (Throws "Unable to create state",
                       mkWorld r' (clock w0 + Z.of_N d) (calls w0)))
          by (unfold requestNewSession, bind, registrarCall; rewrite Hc;
              reflexivity);
        assert (Hn : next (relay w0) = r')
          by (unfold next; rewrite Hc; reflexivity).
      - eexists. cbn [backoffFrom]. rewrite E. split; [reflexivity |].
        cbn. exact (eq_sym Hn).
      - rewrite (backoffFrom_retry _ _ _ _ _ _ E).
        edestruct IH as (w1 & E1 & L1). exists w1. split; [exact E1 |].
        rewrite L1. cbn [relay]. rewrite <- Hn.
        symmetry. apply Nat.iter_succ_r. }
    destruct (Hcut retryFuel 0%nat w) as (w1 & E & L).
    exists w1. fold sid. unfold bind, backoff. rewrite E.
    split; [reflexivity | exact L].
Qed.

Lemma created_session_is_registered_sample :
  idFromSeed (TonhubCreatedSession.seed Scenarios.created)
  = Ret (TonhubCreatedSession.id Scenarios.created).
Proof.
  apply (created_session_is_registered
           (G := Scenarios.accepting)
           mainnet (repeat x01 32) "App" "https://app.example"
           Scenarios.created Reference.start (mkWorld 1%nat 5 [])).
  - vm_compute. reflexivity.
  - vm_compute. reflexivity.
Defined.

(** A relay that refuses every registration, in a run that follows five
    retries: six registrations are made and nothing is returned. *)
Lemma refused_registration_is_retried_sample :
  exists w',
    createNewSession
      (G := Scenarios.refusing)
      mainnet (repeat x01 32) "App" "https://app.example" Reference.start
    = (OutOfFuel, w')
    /\ relay w' = 6%nat.
Proof.
  destruct (proj2 (refused_registration_is_retried
                     (P := Reference.platform) (G := Scenarios.refusing)
                     mainnet (repeat x01 32) "App" "https://app.example"
                     (mkKeyPair (repeat x01 32) (repeat x01 64))
                     ltac:(vm_compute; reflexivity)))
    with (w := Reference.start) as (w' & E & L).
  - intros r. exists (S r), 5%N. reflexivity.
  - exists w'. split; [exact E | exact L].
Defined.

(** ** The local connector *)

(** X17.  The local [requestTransaction] answers [success] exactly when
    the provider answers [ok] with the state [sent], and [rejected] exactly
    when it answers [ok] with the state [rejected]; the provider is asked
    once, by the name [tx], and an empty state-init, text or payload is
    handed to it as [null], like a missing one. *)
Theorem local_requestTransaction_answer {P : Platform} {W : Type}
    {V : Provider W} (network : Network)
    (request : TonhubLocalTransactionRequest.t) (w : W) :
  let args :=
    Args_tx network
      (TonhubLocalTransactionRequest.to request)
      (TonhubLocalTransactionRequest.value request)
      (TonhubLocalConnector.orNull
         (TonhubLocalTransactionRequest.stateInit request))
      (TonhubLocalConnector.orNull
         (TonhubLocalTransactionRequest.text request))
      (TonhubLocalConnector.orNull
         (TonhubLocalTransactionRequest.payload request)) in
  snd (TonhubLocalConnector.requestTransaction network request w)
  = snd (provide "tx" args w)
  /\ (forall result,
        fst (TonhubLocalConnector.requestTransaction network request w)
        = Ret (Local_success result) <->
        fst (provide "tx" args w) = Provider_ok "sent" result)
  /\ (fst (TonhubLocalConnector.requestTransaction network request w)
      = Ret Local_rejected <->
      exists result,
        fst (provide "tx" args w) = Provider_ok "rejected" result)
  /\ TonhubLocalConnector.orNull (Some "") = None.
Proof.
  cbv zeta. unfold TonhubLocalConnector.requestTransaction,
    TonhubLocalConnector.doRequest.
  destruct (provide _ _ w) as [res w1]. cbn [fst snd].
  split; [| split; [| split; [| reflexivity]]].
  - destruct res as [state result | message]; [| reflexivity].
    destruct (state =? "rejected")%string; [reflexivity |].
    destruct (state =? "sent")%string; reflexivity.
  - intros result. destruct res as [state res | message]; cbn [fst].
    + destruct (String.eqb_spec state "rejected") as [-> | Hr]; cbn [fst].
      * split; intros H; inversion H.
      * destruct (String.eqb_spec state "sent") as [-> | Hs]; cbn [fst].
        -- split; intros H; inversion H; reflexivity.
        -- split; intros H; inversion H; subst; contradiction.
    + split; intros H; inversion H.
  - destruct res as [state res | message]; cbn [fst].
    + destruct (String.eqb_spec state "rejected") as [-> | Hr]; cbn [fst].
      * split; [eauto | reflexivity].
      * destruct (String.eqb_spec state "sent") as [-> | Hs]; cbn [fst];
          (split; [intros H; inversion H
                  | intros (result & H); inversion H; subst; contradiction]).
    + split; [intros H; inversion H | intros (result & H); inversion H].
Qed.

(** ** The text cell of the older connector *)

Lemma bytesOfBits_whole (buf : Buffer) :
  bytesOfBits (length (bufferBits buf) / 8) (bufferBits buf) = buf.
Proof.
  rewrite bufferBits_length, Nat.mul_comm, Nat.div_mul by lia.
  rewrite <- (app_nil_r (bufferBits buf)). apply bytesOfBits_bufferBits.
Qed.

Lemma textToCellLoop_chain (fuel : nat) :
  forall bytes : Buffer,
    (length bytes <= 127 * fuel)%nat ->
    Legacy.chainBytes (Legacy.textToCellLoop fuel bytes beginCell) = bytes
    /\ Legacy.chainFits (Legacy.textToCellLoop fuel bytes beginCell).
Proof.
  induction fuel as [| fuel IH]; intros bytes Hl.
  - destruct bytes; [| cbn in Hl; lia]. cbn. unfold maxBits. split; [reflexivity | lia].
  - cbn [Legacy.textToCellLoop].
    destruct (Nat.ltb_spec 0 (length bytes)) as [Hpos | Hz].
    + change (availableBits beginCell / 8)%nat with 127%nat.
      cbn [b_bits b_refs beginCell app].
      destruct (Nat.leb_spec (length bytes) 127) as [Hsmall | Hbig].
      * cbn [Legacy.chainBytes Legacy.chainFits].
        rewrite bytesOfBits_whole, app_nil_r, bufferBits_length.
        unfold maxBits. split; [reflexivity | lia].
      * destruct (IH (skipn 127 bytes)) as [Hc Hf];
          [rewrite length_skipn; lia |].
        cbn [Legacy.chainBytes Legacy.chainFits].
        rewrite bytesOfBits_whole, Hc, firstn_skipn, bufferBits_length,
          length_firstn.
        unfold maxBits. split; [reflexivity | split; [lia | exact Hf]].
    + destruct bytes; [| cbn in Hz; lia]. cbn. unfold maxBits.
      split; [reflexivity | lia].
Qed.

(** X18.  [textToCell] loses nothing of a text, whatever its length: the
    bytes read back along the chain of cells are the bytes of the text, and
    every cell of the chain is within the capacity of a cell and refers to
    at most one cell. *)
Theorem textToCell_keeps_every_byte (src : string) :
  Legacy.chainBytes (Legacy.textToCell src) = utf8 src
  /\ Legacy.chainFits (Legacy.textToCell src).
Proof. unfold Legacy.textToCell. apply textToCellLoop_chain. lia. Qed.

Lemma writeBuffer_is_textToCellLoop (fuel : nat) :
  forall (bytes : Buffer) (b : Builder),
    writeBuffer fuel bytes beginCell = Ret b ->
    endCell b = Legacy.textToCellLoop fuel bytes beginCell.
Proof.
  induction fuel as [| fuel IH]; intros bytes b H; [discriminate |].
  rewrite writeBuffer_unfold in H. cbn [Legacy.textToCellLoop].
  destruct (0 <? length bytes)%nat; [| inversion H; reflexivity].
  change (availableBits beginCell / 8)%nat with 127%nat in *.
  destruct (Nat.ltb_spec 127 (length bytes)) as [Hbig | Hsmall].
  - destruct (Nat.leb_spec (length bytes) 127); [lia |].
    apply rbind_Ret_inv in H. destruct H as (b1 & H1 & H).
    apply storeBits_inv in H1. destruct H1 as [_ ->].
    apply rbind_Ret_inv in H. destruct H as (bb & Hbb & H).
    apply IH in Hbb. cbn in H. inversion H; subst b.
    cbn. rewrite Hbb. reflexivity.
  - destruct (Nat.leb_spec (length bytes) 127); [| lia].
    apply storeBits_inv in H. destruct H as [_ ->]. reflexivity.
Qed.

(** X19.  The comment cell of a transaction job is the same in the older
    and in the current connector: the cell that [storeStringRefTail]
    refers to is the cell that [textToCell] builds for the same text. *)
Theorem transaction_comment_cell_unchanged (src : string) :
  exists b,
    storeStringTail src beginCell = Ret b
    /\ endCell b = Legacy.textToCell src
    /\ forall dest,
         (length (b_refs dest) < maxRefs)%nat ->
         storeStringRefTail src dest
         = Ret (mkBuilder (b_bits dest)
                  (b_refs dest ++ [Legacy.textToCell src])).
Proof.
  destruct (storeStringTail_total src beginCell) as (b & Hb).
  - cbn. unfold maxBits. lia.
  - cbn. unfold maxRefs. lia.
  - exists b. split; [exact Hb |].
    assert (E : endCell b = Legacy.textToCell src)
      by (apply writeBuffer_is_textToCellLoop; exact Hb).
    split; [exact E |].
    intros dest Hd. unfold storeStringRefTail. rewrite Hb. cbn [rbind].
    rewrite storeRef_Ret by exact Hd. rewrite E. reflexivity.
Qed.

(** ** The transaction job *)

Lemma storeCoins_inv (amount : Z) (b b' : Builder) :
  storeCoins amount b = Ret b' ->
  0 <= amount
  /\ b' = mkBuilder (b_bits b ++ coinsBits amount) (b_refs b).
Proof.
  unfold storeCoins, coinsBits.
  destruct (Z.ltb_spec amount 0) as [Hn | Hp]; [discriminate |].
  cbv zeta. intros H.
  apply rbind_Ret_inv in H. destruct H as (b1 & H1 & H).
  apply storeUint_inv in H1. destruct H1 as [_ H1].
  apply storeBits_inv in H1. destruct H1 as [_ ->].
  apply storeUint_inv in H. destruct H as [_ H].
  apply storeBits_inv in H. destruct H as [_ ->].
  cbn [b_bits b_refs]. rewrite <- app_assoc. auto.
Qed.

Lemma storeRef_inv (c : Cell) (b b' : Builder) :
  storeRef c b = Ret b' ->
  b' = mkBuilder (b_bits b) (b_refs b ++ [c]).
Proof.
  unfold storeRef. destruct (length (b_refs b) <? maxRefs)%nat;
    intros H; inversion H. reflexivity.
Qed.

Lemma storeMaybeRef_inv (c : option Cell) (b b' : Builder) :
  storeMaybeRef c b = Ret b' ->
  b' = mkBuilder (b_bits b ++ maybeBit c) (b_refs b ++ maybeRef c).
Proof.
  unfold storeMaybeRef, storeBit. destruct c as [c |]; intros H.
  - apply rbind_Ret_inv in H. destruct H as (b1 & H1 & H).
    apply storeBits_inv in H1. destruct H1 as [_ ->].
    apply storeRef_inv in H. exact H.
  - apply storeBits_inv in H. destruct H as [_ ->]. cbn.
    rewrite app_nil_r. reflexivity.
Qed.

Lemma storeStringRefTail_inv (src : string) (b b' : Builder) :
  storeStringRefTail src b = Ret b' ->
  b' = mkBuilder (b_bits b) (b_refs b ++ [Legacy.textToCell src]).
Proof.
  unfold storeStringRefTail. intros H.
  apply rbind_Ret_inv in H. destruct H as (bb & Hbb & H).
  apply storeRef_inv in H. subst b'.
  unfold storeStringTail in Hbb.
  apply writeBuffer_is_textToCellLoop in Hbb. rewrite Hbb. reflexivity.
Qed.

(** X20.  A transaction job that can be built is laid out as: the bytes of
    the app public key, the expiry on 32 bits, zero coins, and one child
    cell with the destination address, the amount as coins, a flag bit for
    the payload and one for the state-init, and as references the text
    cell, then the payload and the state-init when they are given.  The
    expiry is then a 32-bit number and the amount is not negative. *)
Theorem transactionJob_layout {P : Platform} (appKey : string)
    (expires : Z) (addr : Address) (value : Z) (commentMsg : string)
    (data stateInit : option Cell) (job : Cell) :
  transactionJob appKey expires addr value commentMsg data stateInit
  = Ret job ->
  0 <= expires < 2 ^ 32
  /\ 0 <= value
  /\ job = mkCell
             (bufferBits (fromBase64 appKey) ++ uintBits expires 32
                ++ zeroCoinsBits)
             [ mkCell
                 (addressBits addr ++ coinsBits value ++ maybeBit data
                    ++ maybeBit stateInit)
                 ([Legacy.textToCell commentMsg] ++ maybeRef data
                    ++ maybeRef stateInit) ].
Proof.
  unfold transactionJob, storeBuffer. intros H.
  apply rbind_Ret_inv in H. destruct H as (b1 & H1 & H).
  apply storeBits_inv in H1. destruct H1 as [_ ->].
  apply rbind_Ret_inv in H. destruct H as (b2 & H2 & H).
  apply storeUint_inv in H2. destruct H2 as [He H2].
  apply storeBits_inv in H2. destruct H2 as [_ ->].
  apply rbind_Ret_inv in H. destruct H as (b3 & H3 & H).
  apply storeCoins_inv in H3. destruct H3 as [_ ->].
  apply rbind_Ret_inv in H. destruct H as (c1 & C1 & H).
  apply storeAddress_inv in C1. destruct C1 as (_ & _ & ->).
  apply rbind_Ret_inv in H. destruct H as (c2 & C2 & H).
  apply storeCoins_inv in C2. destruct C2 as [Hv ->].
  apply rbind_Ret_inv in H. destruct H as (c3 & C3 & H).
  apply storeStringRefTail_inv in C3. subst c3.
  apply rbind_Ret_inv in H. destruct H as (c4 & C4 & H).
  apply storeMaybeRef_inv in C4. subst c4.
  apply rbind_Ret_inv in H. destruct H as (c5 & C5 & H).
  apply storeMaybeRef_inv in C5. subst c5.
  apply rbind_Ret_inv in H. destruct H as (b4 & H4 & H).
  apply storeRef_inv in H4. subst b4.
  inversion H; subst job; clear H.
  change (Z.of_nat 32) with 32 in He.
  split; [exact He |]. split; [exact Hv |].
  cbn [endCell b_bits b_refs beginCell app].
  repeat rewrite <- app_assoc. reflexivity.
Qed.

Lemma transactionJob_layout_sample :
  0 <= 300 < 2 ^ 32
  /\ 0 <= 1000000000
  /\ Scenarios.sampleJob
     = mkCell
         (bufferBits (fromBase64 (appPublicKey Samples.wallet))
            ++ uintBits 300 32 ++ zeroCoinsBits)
         [ mkCell
             (addressBits (mkAddress 0 (repeat x00 32))
                ++ coinsBits 1000000000 ++ maybeBit None ++ maybeBit None)
             ([Legacy.textToCell "hello"] ++ maybeRef None ++ maybeRef None) ].
Proof.
  apply (transactionJob_layout (appPublicKey Samples.wallet) 300
           (mkAddress 0 (repeat x00 32)) 1000000000 "hello" None None
           Scenarios.sampleJob).
  vm_compute. reflexivity.
Defined.

(** ** The verifier and the encodings of its inputs *)

(** X21.  [verifyWalletConfig] sees the session id, the signature and the
    app public key only through their base64 decodings: two session ids
    and two configs that agree on the other fields and decode to the same
    bytes get the same answer. *)
Theorem verifyWalletConfig_reads_decoded_bytes {P : Platform}
    (session session' : string) (config config' : TonhubWalletConfig) :
  fromBase64 session = fromBase64 session' ->
  address config = address config' ->
  endpoint config = endpoint config' ->
  walletType config = walletType config' ->
  walletConfig config = walletConfig config' ->
  fromBase64 (walletSig config) = fromBase64 (walletSig config') ->
  fromBase64 (appPublicKey config) = fromBase64 (appPublicKey config') ->
  verifyWalletConfig session config = verifyWalletConfig session' config'.
Proof.
  intros Hs Ha He Ht Hc Hg Hk.
  unfold verifyWalletConfig, walletConfigToSign.
  rewrite Hs, Ha, He, Ht, Hc, Hg, Hk. reflexivity.
Qed.

Lemma verifyWalletConfig_reads_decoded_bytes_padded_id :
  verifyWalletConfig Samples.session Samples.wallet
  = verifyWalletConfig "AQEBAQEBAQEBAQEBAQEBAQEBAQEBAQEBAQEBAQEBAQE="
      Samples.wallet.
Proof.
  apply (verifyWalletConfig_reads_decoded_bytes Samples.session
           "AQEBAQEBAQEBAQEBAQEBAQEBAQEBAQEBAQEBAQEBAQE="
           Samples.wallet Samples.wallet);
    vm_compute; reflexivity.
Defined.

(** ** Answers to a sign request *)

Section SignAnswers.

Context {P : Platform} {R : Type} {T : Transport R}.
Variable network : Network.


End SignAnswers.



